(** * Parallel coordinates module of the bundled Highcharts

    A shallow embedding of
    [k-base/assets/highchart/code/js/es-modules/modules/parallel-coordinates.src.js]
    and the properties its specification states about it.

    Conventions of the embedding.
    - ECMAScript numbers are binary64 floats: [PrimFloat.float], with the
      kernel's IEEE 754 arithmetic, NaN and the infinities.  Array lengths,
      array indices and the dimension counter are integers below 2^32; they
      are kept as [nat] or [Z] and enter float arithmetic through [fromZ].
    - Option objects written by the user are association lists of [value]s
      (key order is insertion order, as in ECMAScript).
    - Host objects (chart, axis, series, point) are records holding the
      properties this module reads or writes.
    - A handler that can raise a [TypeError] (a property read on [undefined]
      or [null]) returns a [result]. *)

From Stdlib Require Import Floats ZArith Lia Bool String List.
From stdpp Require Import base option list.
Import ListNotations.

Set Warnings "-register-all".

Local Open Scope Z_scope.
Local Open Scope string_scope.
Local Open Scope list_scope.

(** ** ECMAScript values *)

Module JS.

(** Values found in option objects. *)
Inductive value : Type :=
| VUndefined
| VNull
| VBool (b : bool)
| VNum (x : float)
| VStr (s : string)
| VArr (elems : list value)
| VObj (fields : list (string * value)).

(** An object literal: its own properties in insertion order. *)
Definition obj : Type := list (string * value).

(** A slot the host keeps a coordinate or a data value in:
    [number | null | undefined]. *)
Inductive numeric : Type :=
| Undefined
| Null
| Num (x : float).

Definition of_numeric (n : numeric) : value :=
  match n with
  | Undefined => VUndefined
  | Null => VNull
  | Num x => VNum x
  end.

(** Outcome of a handler: a value, or an uncaught [TypeError]. *)
Inductive result (A : Type) : Type :=
| Ok (a : A)
| TypeError.
Arguments Ok {A} a.
Arguments TypeError {A}.

#[global] Instance result_ret : MRet result := fun _ a => Ok a.
#[global] Instance result_bind : MBind result := fun _ _ f m =>
  match m with
  | Ok a => f a
  | TypeError => TypeError
  end.

(** [fromZ n]: the integer [n] as a number (exact up to 2^53 in absolute
    value). *)
Definition fromZ (n : Z) : float :=
  if (n <? 0)%Z then (- of_uint63 (Uint63.of_Z (- n)))%float
  else of_uint63 (Uint63.of_Z n).
Definition fromNat (n : nat) : float := fromZ (Z.of_nat n).

Definition MAX_VALUE : float := 0x1.fffffffffffffp+1023%float.
Definition MAX_SAFE_INTEGER : float := 9007199254740991%float.

(** ToBoolean. *)
Definition truthy (v : value) : bool :=
  match v with
  | VUndefined | VNull => false
  | VBool b => b
  | VNum x => negb (is_nan x || is_zero x)
  | VStr s => negb (String.eqb s EmptyString)
  | VArr _ | VObj _ => true
  end.

Definition truthy_numeric (n : numeric) : bool := truthy (of_numeric n).

(** ToNumber on a numeric slot: [undefined] is NaN, [null] is +0. *)
Definition toNumber (n : numeric) : float :=
  match n with
  | Undefined => nan
  | Null => zero
  | Num x => x
  end.

(** The relational operators [<] and [>] on numeric slots. *)
Definition lessThan (a b : numeric) : bool :=
  PrimFloat.ltb (toNumber a) (toNumber b).
Definition greaterThan (a b : numeric) : bool :=
  PrimFloat.ltb (toNumber b) (toNumber a).

(** [Math.abs] is [PrimFloat.abs].  [Math.min]: NaN if an argument is NaN,
    and -0 is smaller than +0. *)
Definition Math_min (a b : float) : float :=
  if is_nan a || is_nan b then nan
  else if PrimFloat.ltb a b then a
  else if PrimFloat.ltb b a then b
  else if is_zero a && get_sign a then a
  else b.

(** Own properties in insertion order: [binding k l] is the first binding
    of [k]; [assign k v l] overwrites it in place, or appends a new key. *)
Fixpoint binding {A : Type} (k : string) (l : list (string * A)) : option A :=
  match l with
  | [] => None
  | (k', v) :: l' => if String.eqb k k' then Some v else binding k l'
  end.

Fixpoint assign {A : Type} (k : string) (v : A) (l : list (string * A))
    : list (string * A) :=
  match l with
  | [] => [(k, v)]
  | (k', v') :: l' =>
      if String.eqb k k' then (k, v) :: l' else (k', v') :: assign k v l'
  end.

(** Property read [o[k]] on an object literal, [undefined] when [k] is not
    bound, and property write [o[k] = v]. *)
Definition prop (k : string) (o : obj) : value :=
  default VUndefined (binding k o).

Definition setProp (k : string) (v : value) (o : obj) : obj := assign k v o.

(** Property read [v.k] on any value: a [TypeError] on [undefined] and
    [null]; own properties of an object literal and [length] of an array or a
    string are found, anything else reads as [undefined]. *)
Definition get (v : value) (k : string) : result value :=
  match v with
  | VUndefined | VNull => TypeError
  | VObj o => Ok (prop k o)
  | VArr l =>
      Ok (if String.eqb k "length" then VNum (fromNat (List.length l))
          else VUndefined)
  | VStr s =>
      Ok (if String.eqb k "length" then VNum (fromNat (String.length s))
          else VUndefined)
  | VBool _ | VNum _ => Ok VUndefined
  end.

(** The array index a number denotes as a property key: a non-negative
    integer. *)
Definition toIndex (x : float) : option nat :=
  match Prim2SF x with
  | S754_zero _ => Some 0%nat
  | S754_finite false m e =>
      if (0 <=? e)%Z then Some (Z.to_nat (Zpos m * 2 ^ e))
      else if (Zpos m mod 2 ^ (- e) =? 0)%Z
           then Some (Z.to_nat (Zpos m / 2 ^ (- e)))
           else None
  | _ => None
  end.

(** [arr[i]] with [i] past the end of a literal reads as the key
    ["undefined"]. *)
Definition key_at (arr : list string) (i : nat) : string :=
  nth i arr "undefined".

End JS.
Export JS.

(** ** Helpers of the host library used by the module *)

Module H.

(** Modelled from the spec: [H.defined] (parts/Utilities.js) is not under
    src/.  The spec has the aggregator skip "entries that are undefined (to
    tolerate series of unequal length or explicit nulls)": a value is defined
    when it is neither [undefined] nor [null]. *)
Definition defined (v : value) : bool :=
  match v with
  | VUndefined | VNull => false
  | _ => true
  end.

Definition defined_numeric (n : numeric) : bool := defined (of_numeric n).

(** Modelled from the spec: [H.pick] is not under src/.  The spec's
    "prioritized default chain": the first argument that is defined. *)
Definition pick {A : Type} (a : option A) (b : A) : A :=
  match a with
  | Some x => x
  | None => b
  end.

Definition pick_value (a b : value) : value :=
  if defined a then a else if defined b then b else VUndefined.

(** Modelled from the spec: [H.splat] is not under src/.  The provisioner
    "pads the user-supplied Y-axis definition list": a lone definition counts
    as a list of one, an array is taken as it is. *)
Definition splat (v : obj + list obj) : list obj :=
  match v with
  | inl o => [o]
  | inr l => l
  end.

(** Modelled from the spec: [H.each] is not under src/.  It is
    [Array.prototype.forEach.call(arr, fn, ctx)]: the callback runs on the
    elements in order, and an [undefined] receiver is a [TypeError] (the
    destroy handler passes [chart.axes || []] for that reason).  [s] is the
    state the callback updates. *)
Definition each {A S : Type} (arr : option (list A))
    (fn : S -> A -> result S) (s : S) : result S :=
  match arr with
  | None => TypeError
  | Some l => foldl (fun acc a => acc ≫= fun s' => fn s' a) (Ok s) l
  end.

(** Modelled from the spec: [H.merge] is not under src/.  The spec resolves
    options in layers, "base defaults → mode-specific overrides → user
    overrides": [doCopy copy original] writes every key of [original] onto
    [copy], descending into nested objects (a counterpart that is not an
    object literal gives way to a fresh one); arrays and primitives are
    replaced.  An [undefined] argument contributes nothing. *)
Fixpoint doCopy (copy : obj) (original : value) {struct original} : obj :=
  match original with
  | VObj fields =>
      (fix go (copy : obj) (l : list (string * value)) {struct l} : obj :=
         match l with
         | [] => copy
         | (k, v) :: l' =>
             let v' :=
               match v with
               | VObj _ =>
                   VObj (doCopy match prop k copy with
                                | VObj c => c
                                | _ => []
                                end v)
               | _ => v
               end in
             go (setProp k v' copy) l'
         end) copy fields
  | _ => copy
  end.

Definition arg (o : option obj) : value :=
  match o with
  | Some o => VObj o
  | None => VUndefined
  end.

(** [merge(a, b)]: a fresh object, [a] then [b] copied onto it. *)
Definition merge (a : obj) (b : option obj) : obj :=
  doCopy (doCopy [] (VObj a)) (arg b).

(** [merge(a, b, c)]. *)
Definition merge3 (a b : obj) (c : option obj) : obj :=
  doCopy (doCopy (doCopy [] (VObj a)) (VObj b)) (arg c).

(** [merge(true, target, source)]: [source] copied onto [target] itself. *)
Definition mergeInto (target : obj) (source : obj) : obj :=
  doCopy target (VObj source).

(** Modelled from the spec: [H.arrayMin] and [H.arrayMax] are not under
    src/.  The aggregator sets "the axis's minimum/maximum to the min/max of
    that filtered collection".  The host scans from the last entry down and
    keeps an entry strictly below (above) the current one, starting from the
    first entry; an empty array gives [undefined]. *)
Definition arrayMin (data : list numeric) : numeric :=
  match data with
  | [] => Undefined
  | d0 :: _ =>
      fold_right (fun d acc => if lessThan d acc then d else acc) d0 data
  end.

Definition arrayMax (data : list numeric) : numeric :=
  match data with
  | [] => Undefined
  | d0 :: _ =>
      fold_right (fun d acc => if greaterThan d acc then d else acc) d0 data
  end.

End H.
Export H.

(** ** Option objects and host objects *)

(** [series[i]] of the user options: [data] is absent or an array. *)
Module SeriesOptions.
Record t : Type := make { data : option (list value) }.
End SeriesOptions.

(** [options.chart]. *)
Module ChartOptions.
Record t : Type := make { parallelCoordinates : value }.
End ChartOptions.

(** The user options handed to the chart constructor ([e.args[0]]). *)
Module Options.
Record t : Type := make {
  chart : option ChartOptions.t;
  series : option (list SeriesOptions.t);
  yAxis : option (obj + list obj);   (* absent, one definition, or an array *)
  xAxis : option (obj + list obj);
  legend : option obj;
  boost : option obj;
  plotOptions : option obj
}.
End Options.

(** An axis: the properties the module reads or writes. *)
Module Axis.
Record t : Type := make {
  isXAxis : bool;
  options : obj;
  parallelPosition : option nat;     (* undefined until afterSetOptions *)
  geometry : list (string * numeric);
    (* own properties written by computed key: left, width, height, top *)
  series : option (list nat);        (* references to the bound series *)
  isDirty : bool;
  forceRedraw : bool;
  dataMin : numeric;
  dataMax : numeric;
  isDatetimeAxis : bool;
  unitName : option string;
    (* tickPositions.info.unitName; None when tickPositions or its info is
       missing, so that reading it throws *)
  angleRad : numeric
}.

Definition set_options (o : obj) (a : t) : t :=
  make (isXAxis a) o (parallelPosition a) (geometry a) (series a) (isDirty a)
       (forceRedraw a) (dataMin a) (dataMax a) (isDatetimeAxis a) (unitName a)
       (angleRad a).
Definition set_parallelPosition (p : option nat) (a : t) : t :=
  make (isXAxis a) (options a) p (geometry a) (series a) (isDirty a)
       (forceRedraw a) (dataMin a) (dataMax a) (isDatetimeAxis a) (unitName a)
       (angleRad a).
Definition set_geometry (g : list (string * numeric)) (a : t) : t :=
  make (isXAxis a) (options a) (parallelPosition a) g (series a) (isDirty a)
       (forceRedraw a) (dataMin a) (dataMax a) (isDatetimeAxis a) (unitName a)
       (angleRad a).
Definition set_series (s : option (list nat)) (a : t) : t :=
  make (isXAxis a) (options a) (parallelPosition a) (geometry a) s (isDirty a)
       (forceRedraw a) (dataMin a) (dataMax a) (isDatetimeAxis a) (unitName a)
       (angleRad a).
Definition set_isDirty (b : bool) (a : t) : t :=
  make (isXAxis a) (options a) (parallelPosition a) (geometry a) (series a) b
       (forceRedraw a) (dataMin a) (dataMax a) (isDatetimeAxis a) (unitName a)
       (angleRad a).
Definition set_forceRedraw (b : bool) (a : t) : t :=
  make (isXAxis a) (options a) (parallelPosition a) (geometry a) (series a)
       (isDirty a) b (dataMin a) (dataMax a) (isDatetimeAxis a) (unitName a)
       (angleRad a).
Definition set_extremes (lo hi : numeric) (a : t) : t :=
  make (isXAxis a) (options a) (parallelPosition a) (geometry a) (series a)
       (isDirty a) (forceRedraw a) lo hi (isDatetimeAxis a) (unitName a)
       (angleRad a).

(** [axis[k]] and [axis[k] = v] for a geometry role [k]. *)
Definition own (k : string) (g : list (string * numeric)) : numeric :=
  default Undefined (binding k g).

Definition setOwn (k : string) (v : numeric) (g : list (string * numeric))
    : list (string * numeric) := assign k v g.
End Axis.

(** A point of a series. *)
Module Point.
Record t : Type := make {
  x : nat;                           (* the dimension the point belongs to *)
  y : numeric;
  plotX : numeric;
  clientX : numeric;
  plotY : numeric;
  isInside : option bool;
  isNull : bool;
  value : JS.value;                  (* set by extend(this, { value: ... }) *)
  formattedValue : JS.value
}.

Definition set_plot (px cx py : numeric) (inside : option bool) (p : t) : t :=
  make (x p) (y p) px cx py inside (isNull p) (value p) (formattedValue p).
Definition set_isNull (b : bool) (p : t) : t :=
  make (x p) (y p) (plotX p) (clientX p) (plotY p) (isInside p) b (value p)
       (formattedValue p).
Definition set_value (v : JS.value) (p : t) : t :=
  make (x p) (y p) (plotX p) (clientX p) (plotY p) (isInside p) (isNull p) v
       (formattedValue p).
Definition set_formattedValue (v : JS.value) (p : t) : t :=
  make (x p) (y p) (plotX p) (clientX p) (plotY p) (isInside p) (isNull p)
       (value p) v.
End Point.

(** A series.  [xAxis] and [yAxis] are references (positions in
    [chart.axes]); [None] is [undefined]. *)
Module Series.
Record t : Type := make {
  yData : list numeric;
  points : option (list Point.t);
  xAxis : option nat;
  yAxis : option nat;
  closestPointRangePx : numeric
}.

Definition set_axes (xa ya : option nat) (s : t) : t :=
  make (yData s) (points s) xa ya (closestPointRangePx s).
Definition set_translated (ps : option (list Point.t)) (c : numeric) (s : t)
    : t :=
  make (yData s) ps (xAxis s) (yAxis s) c.
End Series.

(** The event object a handler receives. *)
Module Event.
Record t : Type := make { defaultPrevented : bool }.
Definition preventDefault (e : t) : t := make true.
End Event.

(** The label config [Point.prototype.getLabelConfig] returns.  Its [point]
    property is the point itself, so a write through [config.point] is a
    write to the point. *)
Module Config.
Record t : Type := make { formattedValue : value }.
End Config.

(** A chart.  [axes] holds every axis of the chart; [xAxis] and [yAxis] hold
    the same objects, here as positions in [axes]. *)
Module Chart.
Record t : Type := make {
  hasParallelCoordinates : value;
  parallelInfo : option Z;           (* parallelInfo.counter *)
  polar : bool;
  inverted : bool;
  plotHeight : float;
  plotTop : float;
  plotLeft : float;
  parallelAxes : obj;                (* options.chart.parallelAxes *)
  axes : option (list (option Axis.t));
  xAxis : list nat;
  yAxis : list nat
}.

Definition set_hasParallelCoordinates (v : value) (c : t) : t :=
  make v (parallelInfo c) (polar c) (inverted c) (plotHeight c) (plotTop c)
       (plotLeft c) (parallelAxes c) (axes c) (xAxis c) (yAxis c).
Definition set_parallelInfo (i : option Z) (c : t) : t :=
  make (hasParallelCoordinates c) i (polar c) (inverted c) (plotHeight c)
       (plotTop c) (plotLeft c) (parallelAxes c) (axes c) (xAxis c) (yAxis c).
Definition set_axes (l : option (list (option Axis.t))) (c : t) : t :=
  make (hasParallelCoordinates c) (parallelInfo c) (polar c) (inverted c)
       (plotHeight c) (plotTop c) (plotLeft c) (parallelAxes c) l (xAxis c)
       (yAxis c).

(** [chart.yAxis[i]] and [chart.xAxis[i]]: [None] stands for [undefined]. *)
Definition axisAt (c : t) (refs : list nat) (i : nat) : option Axis.t :=
  r ← refs !! i; l ← axes c; mjoin (l !! r).
End Chart.

(** ** The module *)

Definition defaultXAxisOptions : obj :=
  [("opposite", VBool true); ("type", VStr "category")].

(** [defaultParallelOptions.parallelAxes], the stock value of
    [chart.options.chart.parallelAxes]. *)
Definition defaultParallelAxes : obj :=
  [("title", VObj [("text", VStr EmptyString); ("reserveSpace", VBool false)]);
   ("labels",
    VObj [("x", VNum 0); ("y", VNum 4); ("align", VStr "center");
          ("reserveSpace", VBool false)]);
   ("offset", VNum 0)].

(** [Chart.prototype.setParallelInfo]. *)
Definition setParallelInfo (chart : Chart.t) (options : Options.t)
    : result Chart.t :=
  let seriesOptions := Options.series options in
  let chart := Chart.set_parallelInfo (Some 0) chart in
  each seriesOptions (fun chart series =>
    match SeriesOptions.data series with
    | Some data =>
        let counter := default 0 (Chart.parallelInfo chart) in
        Ok (Chart.set_parallelInfo
              (Some (Z.max counter (Z.of_nat (length data) - 1))) chart)
    | None => Ok chart
    end) chart.

(** The handler of the chart's [init] event; [options] is [e.args[0]]. *)
Definition init (this : Chart.t) (options : Options.t)
    : result (Chart.t * Options.t) :=
  let defaultyAxis := splat (default (inl []) (Options.yAxis options)) in
  let yAxisLength := length defaultyAxis in
  let this :=
    Chart.set_hasParallelCoordinates
      match Options.chart options with
      | None => VUndefined
      | Some c => ChartOptions.parallelCoordinates c
      end this in
  if truthy (Chart.hasParallelCoordinates this) then
    this ← setParallelInfo this options;
    counter ← match Chart.parallelInfo this with
              | Some c => Ok c
              | None => TypeError
              end;
    (* for (; yAxisLength <= counter; yAxisLength++) newYAxes.push({}) *)
    let newYAxes : list obj :=
      replicate (Z.to_nat (counter + 1 - Z.of_nat yAxisLength)) [] in
    let legend := default [] (Options.legend options) in
    let legend :=
      match prop "enabled" legend with
      | VUndefined => setProp "enabled" (VBool false) legend
      | _ => legend
      end in
    let boost :=
      mergeInto (default [] (Options.boost options))
        [("seriesThreshold", VNum MAX_SAFE_INTEGER)] in
    let plotOptions :=
      mergeInto (default [] (Options.plotOptions options))
        [("series", VObj [("boostThreshold", VNum MAX_SAFE_INTEGER)])] in
    let xAxis :=
      merge defaultXAxisOptions
        (head (splat (default (inl []) (Options.xAxis options)))) in
    Ok (this,
        Options.make (Options.chart options) (Options.series options)
          (Some (inr (defaultyAxis ++ newYAxes))) (Some (inl xAxis))
          (Some legend) (Some boost) (Some plotOptions))
  else Ok (this, options).

Definition axisPosition : list string := ["left"; "width"; "height"; "top"].

Section Handlers.

(** Number::toString of ECMAScript, used by [100 * fraction + '%']. *)
Variable numberToString : float -> string.

(** [Axis.prototype.setParallelPosition]; [this.chart] is [chart].  It
    returns the axis and the options object as it leaves them. *)
Definition setParallelPosition (chart : Chart.t) (this : Axis.t)
    (axisPosition : list string) (options : obj) : result (Axis.t * obj) :=
  counter ← match Chart.parallelInfo chart with
            | Some c => Ok c
            | None => TypeError
            end;
  let fraction :=
    ((match Axis.parallelPosition this with
      | Some p => fromNat p
      | None => nan
      end + 0.5) / (fromZ counter + 1))%float in
  if Chart.polar chart then
    Ok (this, setProp "angle" (VNum (360 * fraction)%float) options)
  else
    let options :=
      setProp (key_at axisPosition 0)
        (VStr (numberToString (100 * fraction)%float ++ "%")) options in
    let options := setProp (key_at axisPosition 1) (VNum 0) options in
    let g := Axis.setOwn (key_at axisPosition 1) (Num 0) (Axis.geometry this) in
    (* In case of chart.update(inverted), remove old options: *)
    let options := setProp (key_at axisPosition 2) VNull options in
    let g := Axis.setOwn (key_at axisPosition 2) Null g in
    let options := setProp (key_at axisPosition 3) VNull options in
    let g := Axis.setOwn (key_at axisPosition 3) Null g in
    Ok (Axis.set_geometry g this, options).

(** The handler of the axis's [afterSetOptions] event; [this.chart] is
    [chart] and [userOptions] is [e.userOptions].  [setParallelPosition] is
    handed [axis.options] itself, so what it writes to [options] lands
    there. *)
Definition afterSetOptions (chart : Chart.t) (axis : Axis.t)
    (userOptions : option obj) : result Axis.t :=
  let axisPosition := axisPosition in
  if truthy (Chart.hasParallelCoordinates chart) then
    let axisPosition :=
      if Chart.inverted chart then rev axisPosition else axisPosition in
    if Axis.isXAxis axis then
      Ok (Axis.set_options
            (merge3 (Axis.options axis) defaultXAxisOptions userOptions) axis)
    else
      let axis :=
        Axis.set_options
          (merge3 (Axis.options axis) (Chart.parallelAxes chart) userOptions)
          axis in
      let axis :=
        Axis.set_parallelPosition
          (Some (pick (Axis.parallelPosition axis)
                      (length (Chart.yAxis chart)))) axis in
      '(axis, options) ←
        setParallelPosition chart axis axisPosition (Axis.options axis);
      Ok (Axis.set_options options axis)
  else Ok axis.

(** The handler of the axis's [getSeriesExtremes] event.  [chart] is
    [this.chart] ([None] when the axis has none) and [heap] resolves the
    references held in [this.series]. *)
Definition getSeriesExtremes (heap : nat -> option Series.t)
    (chart : option Chart.t) (this : Axis.t) (e : Event.t)
    : result (Axis.t * Event.t) :=
  if match chart with
     | Some c => truthy (Chart.hasParallelCoordinates c)
     | None => false
     end && negb (Axis.isXAxis this)
  then
    let index := Axis.parallelPosition this in
    currentPoints ←
      each (Axis.series this) (fun currentPoints r =>
        series ← match heap r with
                 | Some s => Ok s
                 | None => TypeError
                 end;
        let v := default Undefined (i ← index; Series.yData series !! i) in
        if defined_numeric v then
          (* We need to use push() beacause of null points *)
          Ok (currentPoints ++ [v])
        else Ok currentPoints) [];
    Ok (Axis.set_extremes (arrayMin currentPoints) (arrayMax currentPoints)
          this,
        Event.preventDefault e)
  else Ok (this, e).

(** [Series.prototype.insert] and [H.erase] of the host, on collections of
    series references. *)
Variable insert : nat -> list nat -> list nat.
Variable erase : list nat -> nat -> list nat.

(** The wrapper around [Series.prototype.bindAxes].  [this] is the series,
    [ref] the reference under which collections hold it, and [proceed] the
    wrapped method. *)
Definition bindAxes
    (proceed : Chart.t -> nat -> Series.t -> result (Chart.t * Series.t))
    (chart : Chart.t) (ref : nat) (this : Series.t)
    : result (Chart.t * Series.t) :=
  if truthy (Chart.hasParallelCoordinates chart) then
    let series := this in
    axes ←
      each (Chart.axes chart) (fun done axis =>
        match axis with
        | None => TypeError
        | Some axis =>
            collection ← match Axis.series axis with
                         | Some c => Ok c
                         | None => TypeError
                         end;
            let axis := Axis.set_series (Some (insert ref collection)) axis in
            let axis := Axis.set_isDirty true axis in
            Ok (done ++ [Some axis])
        end) [];
    let chart := Chart.set_axes (Some axes) chart in
    Ok (chart,
        Series.set_axes (Chart.xAxis chart !! 0%nat)
          (Chart.yAxis chart !! 0%nat) series)
  else proceed chart ref this.

(** [chart.yAxis[i].translate(y, false, true, null, true)] and
    [chart.isInsidePlot(plotX, plotY, inverted)] of the host. *)
Variable translate : Axis.t -> numeric -> numeric.
Variable isInsidePlot : Chart.t -> numeric -> numeric -> bool -> bool.

(** The body of the translation loop, from index [i] on; it carries
    [closestPointRangePx] and [lastPlotX]. *)
Fixpoint translatePoints (chart : Chart.t) (i : nat) (points : list Point.t)
    (closestPointRangePx : float) (lastPlotX : numeric)
    : result (list Point.t * float) :=
  match points with
  | [] => Ok ([], closestPointRangePx)
  | point :: rest =>
      if defined_numeric (Point.y point) then
        axis ← match Chart.axisAt chart (Chart.yAxis chart) i with
               | Some a => Ok a
               | None => TypeError
               end;
        let plotX :=
          if Chart.polar chart then
            if truthy_numeric (Axis.angleRad axis) then Axis.angleRad axis
            else Num 0
          else if Chart.inverted chart then
            Num (Chart.plotHeight chart
                 - toNumber (Axis.own "top" (Axis.geometry axis))
                 + Chart.plotTop chart)%float
          else
            Num (toNumber (Axis.own "left" (Axis.geometry axis))
                 - Chart.plotLeft chart)%float in
        let plotY := translate axis (Point.y point) in
        let closestPointRangePx :=
          match lastPlotX with
          | Undefined => closestPointRangePx
          | _ =>
              Math_min closestPointRangePx
                (abs (toNumber plotX - toNumber lastPlotX))
          end in
        let lastPlotX := plotX in
        let point :=
          Point.set_plot plotX plotX plotY
            (Some (isInsidePlot chart plotX plotY (Chart.inverted chart)))
            point in
        '(rest, closestPointRangePx) ←
          translatePoints chart (S i) rest closestPointRangePx lastPlotX;
        Ok (point :: rest, closestPointRangePx)
      else
        let point := Point.set_isNull true point in
        '(rest, closestPointRangePx) ←
          translatePoints chart (S i) rest closestPointRangePx lastPlotX;
        Ok (point :: rest, closestPointRangePx)
  end.

(** The handler of the series's [afterTranslate] event; [this.chart] is
    [chart]. *)
Definition afterTranslate (chart : Chart.t) (this : Series.t)
    : result Series.t :=
  let series := this in
  let points := Series.points series in
  let closestPointRangePx := MAX_VALUE in
  if truthy (Chart.hasParallelCoordinates chart) then
    '(points', closestPointRangePx) ←
      translatePoints chart 0 (default [] points) closestPointRangePx
        Undefined;
    Ok (Series.set_translated (fmap (fun _ => points') points)
          (Num closestPointRangePx) series)
  else Ok series.

(** The handler of the series's [destroy] event; [this.chart] is [chart] and
    [ref] the reference under which collections hold the series. *)
Definition destroy (chart : Chart.t) (ref : nat) : result Chart.t :=
  if truthy (Chart.hasParallelCoordinates chart) then
    axes ←
      each (Some (default [] (Chart.axes chart))) (fun done axis =>
        match axis with
        | Some a =>
            match Axis.series a with
            | Some collection =>
                let a := Axis.set_series (Some (erase collection ref)) a in
                let a := Axis.set_forceRedraw true a in
                let a := Axis.set_isDirty true a in
                Ok (done ++ [Some a])
            | None => Ok (done ++ [axis])
            end
        | None => Ok (done ++ [axis])
        end) [];
    Ok (Chart.set_axes (fmap (fun _ => axes) (Chart.axes chart)) chart)
  else Ok chart.

(** [H.format(format, ctx, chart.time)] and
    [chart.time.dateFormat(format, timestamp)] of the host, for the time
    settings of the chart at hand. *)
Variable format : value -> Point.t -> value.
Variable dateFormat : value -> numeric -> value.

(** The property key a numeric slot denotes. *)
Definition toPropertyKey (n : numeric) : string :=
  match n with
  | Undefined => "undefined"
  | Null => "null"
  | Num x => numberToString x
  end.

(** [v[n]] for a truthy value [v]. *)
Definition elemAt (v : value) (n : numeric) : value :=
  match v with
  | VArr l =>
      match n with
      | Num x => default VUndefined (i ← toIndex x; l !! i)
      | _ => VUndefined
      end
  | VObj o => prop (toPropertyKey n) o
  | VStr s =>
      match n with
      | Num x =>
          default VUndefined
            (i ← toIndex x; c ← String.get i s;
             Some (VStr (String c EmptyString)))
      | _ => VUndefined
      end
  | _ => VUndefined
  end.

(** [addFormattedValue], the wrapper around [getLabelConfig] of the point
    classes of line and spline series.  [chart] is
    [this.series && this.series.chart] and [proceed] the wrapped method.  It
    returns the config and the point as it leaves it. *)
Definition addFormattedValue (proceed : Point.t -> Config.t)
    (chart : option Chart.t) (this : Point.t) : result (Config.t * Point.t) :=
  let config := proceed this in
  match chart with
  | Some chart =>
      if truthy (Chart.hasParallelCoordinates chart)
         && negb (defined (Config.formattedValue config))
      then
        yAxis ← match Chart.axisAt chart (Chart.yAxis chart) (Point.x this)
                with
                | Some a => Ok a
                | None => TypeError
                end;
        let yAxisOptions := Axis.options yAxis in
        labelsFormat ← get (prop "labels" yAxisOptions) "format";
        let labelFormat :=
          pick_value (prop "tooltipValueFormat" yAxisOptions) labelsFormat in
        '(formattedValue, this) ←
          (if truthy labelFormat then
             let this := Point.set_value (of_numeric (Point.y this)) this in
             Ok (format labelFormat this, this)
           else if Axis.isDatetimeAxis yAxis then
             unitName ← match Axis.unitName yAxis with
                        | Some u => Ok u
                        | None => TypeError
                        end;
             fmt ← get (prop "dateTimeLabelFormats" yAxisOptions) unitName;
             Ok (dateFormat fmt (Point.y this), this)
           else if truthy (prop "categories" yAxisOptions) then
             Ok (elemAt (prop "categories" yAxisOptions) (Point.y this), this)
           else Ok (of_numeric (Point.y this), this));
        Ok (Config.make formattedValue,
            Point.set_formattedValue formattedValue this)
      else Ok (config, this)
  | None => Ok (config, this)
  end.

End Handlers.

(** ** Chart update *)

(** [e.options.chart] of a chart update: [parallelAxes] is absent or an
    object. *)
Module ChartUpdate.
Record t : Type := make {
  parallelCoordinates : value;
  parallelAxes : option obj
}.
End ChartUpdate.

Definition set_parallelAxes (o : obj) (c : Chart.t) : Chart.t :=
  Chart.make (Chart.hasParallelCoordinates c) (Chart.parallelInfo c)
    (Chart.polar c) (Chart.inverted c) (Chart.plotHeight c) (Chart.plotTop c)
    (Chart.plotLeft c) o (Chart.axes c) (Chart.xAxis c) (Chart.yAxis c).

Section Update.

(** [axis.update({}, false)] of the host, on an axis of the chart at hand. *)
Variable axisUpdate : Chart.t -> Axis.t -> result Axis.t.

(** The handler of the chart's [update] event; [chartOptions] is
    [e.options.chart] ([None] when the update has no chart section). *)
Definition update (this : Chart.t) (chartOptions : option ChartUpdate.t)
    : result Chart.t :=
  match chartOptions with
  | Some optionsChart =>
      let this :=
        if defined (ChartUpdate.parallelCoordinates optionsChart) then
          Chart.set_hasParallelCoordinates
            (ChartUpdate.parallelCoordinates optionsChart) this
        else this in
      match ChartUpdate.parallelAxes optionsChart with
      | Some parallelAxes =>
          if truthy (Chart.hasParallelCoordinates this) then
            let this :=
              set_parallelAxes
                (merge (Chart.parallelAxes this) (Some parallelAxes)) this in
            each (Some (Chart.yAxis this)) (fun this r =>
              match Chart.axes this with
              | Some l =>
                  match l !! r with
                  | Some (Some axis) =>
                      axis ← axisUpdate this axis;
                      Ok (Chart.set_axes (Some (<[r := Some axis]> l)) this)
                  | _ => TypeError
                  end
              | None => TypeError
              end) this
          else Ok this
      | None => Ok this
      end
  | None => Ok this
  end.

End Update.

(** ** Notions the statements use *)

(** The data lengths L1..Lk of the series that define data, and the largest
    entry of a list (0 for the empty list). *)
Definition dataLengths (ss : list SeriesOptions.t) : list nat :=
  omap (fun s => length <$> SeriesOptions.data s) ss.

Definition max_list (l : list nat) : nat := foldr Nat.max 0%nat l.

(** The dimension counter after scanning [ss] from [c]. *)
Definition counterOf (c : Z) (ss : list SeriesOptions.t) : Z :=
  foldl (fun c a => match SeriesOptions.data a with
                    | Some data => Z.max c (Z.of_nat (length data) - 1)
                    | None => c
                    end) c ss.

(** The order the geometry roles are applied in, and the placement of
    axis [i] among [counter + 1] axes. *)
Definition rolesFor (inverted : bool) : list string :=
  if inverted then rev axisPosition else axisPosition.

Definition fractionOf (i : nat) (counter : Z) : float :=
  ((fromNat i + 0.5) / (fromZ counter + 1))%float.

(** The defined values the series hold at data index [i]. *)
Definition valuesAt (i : nat) (ss : list Series.t) : list numeric :=
  List.filter defined_numeric
    (map (fun s => default Undefined (Series.yData s !! i)) ss).

(** [m] is a least (greatest) entry of [l]. *)
Definition least (m : numeric) (l : list numeric) : Prop :=
  m ∈ l ∧ ∀ v, v ∈ l → PrimFloat.leb (toNumber m) (toNumber v) = true.

Definition greatest (m : numeric) (l : list numeric) : Prop :=
  m ∈ l ∧ ∀ v, v ∈ l → PrimFloat.leb (toNumber v) (toNumber m) = true.

(** A number in the strict sense: not [NaN]. *)
Definition isNumber (v : numeric) : Prop :=
  ∃ x, v = Num x ∧ is_nan x = false.

(** Absolute differences of consecutive entries. *)
Fixpoint gaps (xs : list float) : list float :=
  match xs with
  | a :: (b :: _) as rest => abs (b - a) :: gaps rest
  | _ => []
  end.

Section Notions.

Variable insert : nat -> list nat -> list nat.
Variable erase : list nat -> nat -> list nat.
Variable translate : Axis.t -> numeric -> numeric.
Variable isInsidePlot : Chart.t -> numeric -> numeric -> bool -> bool.

(** What binding a series does to one axis, and to one entry of
    [chart.axes]. *)
Definition bound (ref : nat) (axis : Axis.t) (collection : list nat)
    : Axis.t :=
  Axis.set_isDirty true (Axis.set_series (Some (insert ref collection)) axis).

Definition bindOne (ref : nat) (axis : option Axis.t)
    : result (option Axis.t) :=
  match axis with
  | None => TypeError
  | Some axis =>
      match Axis.series axis with
      | Some c => Ok (Some (bound ref axis c))
      | None => TypeError
      end
  end.

(** What destroying a series does to one entry of [chart.axes]. *)
Definition released (ref : nat) (axis : option Axis.t) : option Axis.t :=
  match axis with
  | Some a =>
      match Axis.series a with
      | Some collection =>
          Some (Axis.set_isDirty true
                  (Axis.set_forceRedraw true
                     (Axis.set_series (Some (erase collection ref)) a)))
      | None => axis
      end
  | None => axis
  end.

(** Where the axis of a dimension sits along the shared axis. *)
Definition axisCoordinate (chart : Chart.t) (axis : Axis.t) : numeric :=
  if Chart.polar chart then
    if truthy_numeric (Axis.angleRad axis) then Axis.angleRad axis else Num 0
  else if Chart.inverted chart then
    Num (Chart.plotHeight chart
         - toNumber (Axis.own "top" (Axis.geometry axis))
         + Chart.plotTop chart)%float
  else
    Num (toNumber (Axis.own "left" (Axis.geometry axis))
         - Chart.plotLeft chart)%float.

(** A defined point after translation on the axis of its dimension. *)
Definition translated (chart : Chart.t) (axis : Axis.t) (point : Point.t)
    : Point.t :=
  let plotX := axisCoordinate chart axis in
  let plotY := translate axis (Point.y point) in
  Point.set_plot plotX plotX plotY
    (Some (isInsidePlot chart plotX plotY (Chart.inverted chart))) point.

(** [plotX] of the defined points from dimension [i] on, in order. *)
Fixpoint definedPlotX (chart : Chart.t) (i : nat) (points : list Point.t)
    : list float :=
  match points with
  | [] => []
  | point :: rest =>
      if defined_numeric (Point.y point) then
        match Chart.axisAt chart (Chart.yAxis chart) i with
        | Some axis =>
            toNumber (axisCoordinate chart axis)
            :: definedPlotX chart (S i) rest
        | None => definedPlotX chart (S i) rest
        end
      else definedPlotX chart (S i) rest
  end.

Definition previous (lastPlotX : numeric) : list float :=
  match lastPlotX with
  | Undefined => []
  | v => [toNumber v]
  end.

End Notions.

(** The flag the constructor reads from the user options. *)
Definition requested (options : Options.t) : value :=
  match Options.chart options with
  | None => VUndefined
  | Some c => ChartOptions.parallelCoordinates c
  end.

(** ** Sample charts *)

(** A chart as the constructor sees it, before any option is read. *)
Definition blankChart : Chart.t :=
  Chart.make VUndefined None false false 0%float 0%float 0%float [] None [] [].

Definition seriesOfLength (n : nat) : SeriesOptions.t :=
  SeriesOptions.make (Some (replicate n (VNum 1))).

(** [{ chart: { parallelCoordinates: true } }]: no [series] key at all. *)
Definition withoutSeries : Options.t :=
  Options.make (Some (ChartOptions.make (VBool true))) None None None None
    None None.

(** [{ chart: { parallelCoordinates: true }, series: [] }]. *)
Definition noSeries : Options.t :=
  Options.make (Some (ChartOptions.make (VBool true))) (Some []) None None
    None None None.

(** Three series of lengths 4, 3 and 5. *)
Definition threeSeries : Options.t :=
  Options.make (Some (ChartOptions.make (VBool true)))
    (Some [seriesOfLength 4; seriesOfLength 3; seriesOfLength 5]) None None
    None None None.

(** No series, and [xAxis: { type: 'linear' }]. *)
Definition linearXAxis : Options.t :=
  Options.make (Some (ChartOptions.make (VBool true))) (Some []) None
    (Some (inl [("type", VStr "linear")])) None None None.

(** A linear chart in parallel mode with two dimensions. *)
Definition enabledChart : Chart.t :=
  Chart.make (VBool true) (Some 1) false false 0%float 0%float 0%float []
    None [] [].

Definition seriesOf (yData : list numeric) : Series.t :=
  Series.make yData None None None Undefined.

(** The series [[1,5], [2,null], [3,7]] under the references 0, 1, 2. *)
Definition threeBound (r : nat) : option Series.t :=
  [seriesOf [Num 1; Num 5]; seriesOf [Num 2; Null]; seriesOf [Num 3; Num 7]]
    !! r.

(** The Y-axis at parallel position 1, bound to the three series. *)
Definition secondAxis : Axis.t :=
  Axis.make false [] (Some 1%nat) [] (Some [0; 1; 2]%nat) false false
    Undefined Undefined false None Undefined.

(** A Y-axis whose left edge is at [left]. *)
Definition axisAtLeft (left : float) : Axis.t :=
  Axis.make false [] None [("left", Num left)] (Some []) false false
    Undefined Undefined false None Undefined.

(** Three Y-axes at 10, 30 and 70 pixels; the plot area starts at 10. *)
Definition threeAxes : Chart.t :=
  Chart.make (VBool true) (Some 2) false false 100%float 0%float 10%float []
    (Some [Some (axisAtLeft 10); Some (axisAtLeft 30);
           Some (axisAtLeft 70)])
    [] [0; 1; 2]%nat.

(** The same mode with two axes in [chart.axes]. *)
Definition twoAxes : Chart.t :=
  Chart.set_axes (Some [Some (axisAtLeft 0); Some (axisAtLeft 10)])
    enabledChart.

Definition pointAt (y : numeric) : Point.t :=
  Point.make 0 y Undefined Undefined Undefined None false VUndefined
    VUndefined.

(** A series whose middle value is missing. *)
Definition gappedSeries : Series.t :=
  Series.make [Num 4; Undefined; Num 6]
    (Some [pointAt (Num 4); pointAt Undefined; pointAt (Num 6)]) None None
    Undefined.

(** A datetime axis that also lists categories, its chart, and the point at
    category index 1. *)
Definition datedAxis : Axis.t :=
  Axis.make false
    [("labels", VObj []);
     ("categories", VArr [VStr "low"; VStr "high"]);
     ("dateTimeLabelFormats", VObj [("day", VStr "%e. %b")])]
    (Some 0%nat) [] (Some []) false false Undefined Undefined true
    (Some "day") Undefined.

Definition datedChart : Chart.t :=
  Chart.make (VBool true) (Some 0) false false 0%float 0%float 0%float []
    (Some [Some datedAxis]) [] [0%nat].

Definition datedPoint : Point.t := pointAt (Num 1).

(** A chart whose shared X-axis and two Y-axes are its three axes, in that
    order. *)
Definition sharedAxis : Axis.t :=
  Axis.make true [] None [] (Some []) false false Undefined Undefined false
    None Undefined.

Definition axesChart : Chart.t :=
  Chart.make (VBool true) (Some 1) false false 0%float 0%float 0%float []
    (Some [Some sharedAxis; Some (axisAtLeft 0); Some (axisAtLeft 10)])
    [0%nat] [1; 2]%nat.

(** Two Y-axes of which the second lies infinitely far out, and a series of
    two points. *)
Definition farAxes : Chart.t :=
  Chart.make (VBool true) (Some 1) false false 100%float 0%float 0%float []
    (Some [Some (axisAtLeft 0); Some (axisAtLeft infinity)]) [] [0; 1]%nat.

Definition pairSeries : Series.t :=
  Series.make [Num 1; Num 2] (Some [pointAt (Num 1); pointAt (Num 2)]) None
    None Undefined.

(** A user who set boost and series options of their own. *)
Definition tunedOptions : Options.t :=
  Options.make (Some (ChartOptions.make (VBool true)))
    (Some [seriesOfLength 2]) None None None
    (Some [("enabled", VBool true); ("seriesThreshold", VNum 10)])
    (Some [("series", VObj [("color", VStr "red")]);
           ("line", VObj [])]).

(** A chart constructed without parallel coordinates: no [parallelInfo]. *)
Definition plainChart : Chart.t :=
  Chart.make (VBool false) None false false 0%float 0%float 0%float [] None
    [] [].

(** A Y-axis that was never positioned. *)
Definition freshAxis : Axis.t :=
  Axis.make false [("min", VNum 0)] None [("left", Num 5)] (Some []) false
    false Undefined Undefined false None Undefined.

(** A series of four points on a chart with three Y-axes. *)
Definition longSeries : Series.t :=
  Series.make [Num 1; Num 2; Num 3; Num 4]
    (Some [pointAt (Num 1); pointAt (Num 2); pointAt (Num 3);
           pointAt (Num 4)]) None None Undefined.

(** A plain numeric axis, one with an empty [tooltipValueFormat] next to a
    [labels.format], and one with two categories. *)
Definition chartOf (axis : Axis.t) : Chart.t :=
  Chart.make (VBool true) (Some 0) false false 0%float 0%float 0%float []
    (Some [Some axis]) [] [0%nat].

Definition axisWith (options : obj) : Axis.t :=
  Axis.make false options (Some 0%nat) [] (Some []) false false Undefined
    Undefined false None Undefined.

Definition shadowedAxis : Axis.t :=
  axisWith [("tooltipValueFormat", VStr EmptyString);
            ("labels", VObj [("format", VStr "{value} km")])].

Definition categoryAxis : Axis.t :=
  axisWith [("labels", VObj []);
            ("categories", VArr [VStr "low"; VStr "high"])].

(** * Properties *)

(** ** Object literals *)

Section Assoc.
Context {A : Type}.
Implicit Types (k : string) (v : A) (l : list (string * A)).

Lemma binding_assign_eq k v l : binding k (assign k v l) = Some v.
Proof.
  induction l as [|[k' v'] l IH]; simpl.
  - by rewrite String.eqb_refl.
  - destruct (String.eqb k k') eqn:E; simpl;
      rewrite ?String.eqb_refl, ?E; done.
Qed.

Lemma binding_assign_ne k k' v l :
  k ≠ k' → binding k (assign k' v l) = binding k l.
Proof.
  intros Hne. apply String.eqb_neq in Hne.
  induction l as [|[k1 v1] l IH]; simpl.
  - by rewrite Hne.
  - destruct (String.eqb k' k1) eqn:E; simpl.
    + apply String.eqb_eq in E; subst k1. by rewrite Hne.
    + by rewrite IH.
Qed.

(** Writing the value a key already has changes nothing. *)
Lemma assign_bound k v l : binding k l = Some v → assign k v l = l.
Proof.
  induction l as [|[k' v'] l IH]; simpl; [done|].
  destruct (String.eqb k k') eqn:E.
  - apply String.eqb_eq in E; subst k'. by intros [= ->].
  - intros H. by rewrite IH.
Qed.

Lemma assign3_twice k1 k2 k3 v1 v2 v3 l :
  k1 ≠ k2 → k1 ≠ k3 → k2 ≠ k3 →
  let r := assign k3 v3 (assign k2 v2 (assign k1 v1 l)) in
  assign k3 v3 (assign k2 v2 (assign k1 v1 r)) = r.
Proof.
  intros H12 H13 H23 r.
  rewrite (assign_bound k1 v1 r).
  2:{ subst r. do 2 rewrite binding_assign_ne by done.
      by rewrite binding_assign_eq. }
  rewrite (assign_bound k2 v2 r).
  2:{ subst r. rewrite binding_assign_ne by done.
      by rewrite binding_assign_eq. }
  apply assign_bound. subst r. by rewrite binding_assign_eq.
Qed.

Lemma assign4_twice k0 k1 k2 k3 v0 v1 v2 v3 l :
  k0 ≠ k1 → k0 ≠ k2 → k0 ≠ k3 → k1 ≠ k2 → k1 ≠ k3 → k2 ≠ k3 →
  let r := assign k3 v3 (assign k2 v2 (assign k1 v1 (assign k0 v0 l))) in
  assign k3 v3 (assign k2 v2 (assign k1 v1 (assign k0 v0 r))) = r.
Proof.
  intros H01 H02 H03 H12 H13 H23 r.
  rewrite (assign_bound k0 v0 r).
  2:{ subst r. do 3 rewrite binding_assign_ne by done.
      by rewrite binding_assign_eq. }
  by apply assign3_twice.
Qed.
End Assoc.

Ltac assoc_simpl :=
  unfold prop, setProp, Axis.own, Axis.setOwn;
  repeat first
    [ rewrite binding_assign_eq
    | rewrite binding_assign_ne by (intros ?; discriminate) ].

(** A key the source object does not bind is left as it was. *)
Lemma prop_doCopy_frame (k : string) (o : obj) (copy : obj) :
  binding k o = None → prop k (doCopy copy (VObj o)) = prop k copy.
Proof.
  simpl. revert copy. induction o as [|[k1 v1] o IH]; intros copy Hk; [done|].
  simpl in Hk. destruct (String.eqb k k1) eqn:E; [done|].
  rewrite IH by done. unfold prop, setProp.
  rewrite binding_assign_ne; [done|]. by apply String.eqb_neq.
Qed.

(** ** Iteration *)

Lemma foldl_TypeError {A S : Type} (fn : S → A → result S) (l : list A) :
  foldl (fun acc a => acc ≫= fun s' => fn s' a) TypeError l = TypeError.
Proof. induction l; simpl; auto. Qed.

Lemma each_ext {A S : Type} (f g : S → A → result S) (arr : option (list A))
    (s : S) :
  (∀ s a, f s a = g s a) → each arr f s = each arr g s.
Proof.
  intros E. destruct arr as [l|]; [|done]. unfold each.
  generalize (Ok s). induction l as [|a l IH]; intros acc; [done|].
  cbn [foldl]. rewrite IH. f_equal. destruct acc; [apply E|done].
Qed.

(** [each] with a callback that pushes one entry per element is a map. *)
Lemma each_push {A B : Type} (g : A → result B) (l : list A) (acc : list B) :
  each (Some l) (fun done a => g a ≫= fun b => Ok (done ++ [b])) acc
  = foldr (fun a r => g a ≫= fun b => r ≫= fun bs => Ok (b :: bs)) (Ok []) l
      ≫= fun bs => Ok (acc ++ bs).
Proof.
  unfold each. revert acc. induction l as [|a l IH]; intros acc.
  - simpl. by rewrite app_nil_r.
  - cbn [foldl foldr]. cbn [mbind result_bind]. destruct (g a) as [b|].
    + cbn [mbind result_bind]. rewrite IH.
      destruct (foldr _ _ l) as [bs|]; cbn [mbind result_bind]; [|done].
      by rewrite <- app_assoc.
    + cbn [mbind result_bind]. apply foldl_TypeError.
Qed.

(** ** The order of binary64 numbers *)
Module FloatOrder.

Ltac split_compare :=
  repeat match goal with
  | H : context [(?a ?= ?b)%Z] |- _ =>
      destruct (Z.compare_spec a b); simpl in H
  | |- context [(?a ?= ?b)%Z] => destruct (Z.compare_spec a b); simpl
  | H : context [(?a ?= ?b)%positive] |- _ =>
      destruct (Pos.compare_spec a b); simpl in H
  | |- context [(?a ?= ?b)%positive] =>
      destruct (Pos.compare_spec a b); simpl
  end.

Lemma SFcompare_antisym (a b : spec_float) :
  SFcompare b a = option_map CompOpp (SFcompare a b).
Proof.
  destruct a as [[]|[]| |[] m1 e1], b as [[]|[]| |[] m2 e2]; simpl;
    try reflexivity;
    change (Pos.compare_cont Eq) with Pos.compare;
    rewrite (Z.compare_antisym e1 e2), (Pos.compare_antisym m1 m2);
    destruct (e1 ?= e2)%Z; simpl; try reflexivity;
    destruct (m1 ?= m2)%positive; reflexivity.
Qed.

Lemma SFltb_trans (a b c : spec_float) :
  SFltb a b = true → SFltb b c = true → SFltb a c = true.
Proof.
  unfold SFltb.
  destruct a as [[]|[]| |[] m1 e1], b as [[]|[]| |[] m2 e2],
           c as [[]|[]| |[] m3 e3];
    simpl; try congruence;
    change (Pos.compare_cont Eq) with Pos.compare; intros H1 H2;
    split_compare; subst; try congruence; try lia.
Qed.

Lemma ltb_trans (x y z : float) :
  PrimFloat.ltb x y = true → PrimFloat.ltb y z = true →
  PrimFloat.ltb x z = true.
Proof. rewrite !FloatAxioms.ltb_spec. apply SFltb_trans. Qed.

Lemma ltb_irrefl (x : float) : PrimFloat.ltb x x = false.
Proof.
  rewrite FloatAxioms.ltb_spec. unfold SFltb.
  destruct (Prim2SF x) as [[]|[]| |[] m e]; simpl; try reflexivity;
    rewrite Z.compare_refl; change (Pos.compare_cont Eq) with Pos.compare;
    rewrite Pos.compare_refl; reflexivity.
Qed.

Lemma is_nan_spec (x : float) :
  is_nan x = match Prim2SF x with S754_nan => true | _ => false end.
Proof.
  unfold is_nan. rewrite FloatAxioms.eqb_spec. unfold SFeqb.
  destruct (Prim2SF x) as [[]|[]| |[] m e]; simpl; try reflexivity;
    rewrite Z.compare_refl; change (Pos.compare_cont Eq) with Pos.compare;
    rewrite Pos.compare_refl; reflexivity.
Qed.

(** On numbers, [x <= y] holds as soon as [y < x] fails. *)
Lemma not_ltb_leb (x y : float) :
  is_nan x = false → is_nan y = false →
  PrimFloat.ltb y x = false → PrimFloat.leb x y = true.
Proof.
  rewrite !is_nan_spec, FloatAxioms.ltb_spec, FloatAxioms.leb_spec.
  unfold SFltb, SFleb.
  rewrite (SFcompare_antisym (Prim2SF x) (Prim2SF y)).
  destruct (Prim2SF x) as [[]|[]| |[] m1 e1],
           (Prim2SF y) as [[]|[]| |[] m2 e2]; simpl; try congruence;
    destruct (e1 ?= e2)%Z; simpl; try congruence;
    destruct (Pos.compare_cont Eq m1 m2); simpl; congruence.
Qed.

Lemma digits2_pos_bound (m : positive) : Zpos m < 2 ^ Zpos (digits2_pos m).
Proof.
  induction m; simpl digits2_pos;
    rewrite ?Pos2Z.inj_succ, ?Z.pow_succ_r by lia; lia.
Qed.

(** [Number.MAX_VALUE] is the largest number short of [Infinity]. *)
Lemma MAX_VALUE_top (x : float) :
  is_nan x = false → x ≠ infinity → PrimFloat.ltb MAX_VALUE x = false.
Proof.
  intros Hn Hi. rewrite is_nan_spec in Hn. rewrite FloatAxioms.ltb_spec.
  pose proof (Prim2SF_valid x) as Hv.
  assert (Hinf : Prim2SF x ≠ S754_infinity false).
  { intros E. apply Hi. rewrite <- (SF2Prim_Prim2SF x), E. reflexivity. }
  change (Prim2SF MAX_VALUE) with (S754_finite false 9007199254740991 971).
  unfold SFltb.
  destruct (Prim2SF x) as [[]|[]| |[] m e]; try reflexivity; try congruence.
  cbv beta iota delta [SFcompare].
  simpl in Hv. unfold bounded, canonical_mantissa, fexp, emin in Hv.
  apply andb_prop in Hv as [Hc He].
  apply Z.eqb_eq in Hc. apply Z.leb_le in He.
  pose proof (digits2_pos_bound m) as Hb.
  change (emax - prec) with 971 in He.
  destruct (Z.compare_spec 971 e) as [E| |]; try lia; try reflexivity.
  subst e.
  assert (Zpos (digits2_pos m) <= 53) by (unfold prec, emax in Hc; lia).
  assert (Zpos m < 2 ^ 53).
  { eapply Z.lt_le_trans; [exact Hb|]. apply Z.pow_le_mono_r; lia. }
  change (Pos.compare_cont Eq) with Pos.compare.
  destruct (Pos.compare_spec 9007199254740991 m); try reflexivity.
  change (2 ^ 53) with 9007199254740992 in *. lia.
Qed.

Lemma SFltb_cotrans (a b c : spec_float) :
  b ≠ S754_nan → SFltb a c = true → SFltb a b = true ∨ SFltb b c = true.
Proof.
  unfold SFltb.
  destruct a as [[]|[]| |[] m1 e1], b as [[]|[]| |[] m2 e2],
           c as [[]|[]| |[] m3 e3];
    simpl; try congruence; auto;
    change (Pos.compare_cont Eq) with Pos.compare; intros _ H1;
    split_compare; subst; try congruence; auto; try lia.
Qed.

Lemma ltb_cotrans (x y z : float) :
  is_nan y = false → PrimFloat.ltb x z = true →
  PrimFloat.ltb x y = true ∨ PrimFloat.ltb y z = true.
Proof.
  rewrite is_nan_spec, !FloatAxioms.ltb_spec. intros Hy.
  apply SFltb_cotrans. intros E. by rewrite E in Hy.
Qed.

Lemma ltb_asym (x y : float) :
  PrimFloat.ltb x y = true → PrimFloat.ltb y x = false.
Proof.
  intros H. destruct (PrimFloat.ltb y x) eqn:E; [|done].
  by rewrite <- (ltb_irrefl x), (ltb_trans x y x).
Qed.
End FloatOrder.
Import FloatOrder.

(** ** Minima *)

Lemma is_finite_number (g : float) :
  is_finite g = true → is_nan g = false ∧ g ≠ infinity.
Proof.
  unfold is_finite. intros H. apply negb_true_iff, orb_false_elim in H.
  destruct H as [Hn Hi]. split; [done|]. intros ->. by vm_compute in Hi.
Qed.

Lemma Math_min_cases (a b : float) :
  is_nan a = false → is_nan b = false →
  (Math_min a b = a ∨ Math_min a b = b) ∧
  PrimFloat.ltb a (Math_min a b) = false ∧
  PrimFloat.ltb b (Math_min a b) = false.
Proof.
  intros Ha Hb. unfold Math_min. rewrite Ha, Hb. cbn [orb].
  destruct (PrimFloat.ltb a b) eqn:Eab.
  { repeat split; auto using ltb_irrefl, ltb_asym. }
  destruct (PrimFloat.ltb b a) eqn:Eba.
  { repeat split; auto using ltb_irrefl. }
  destruct (is_zero a && get_sign a); repeat split; auto using ltb_irrefl.
Qed.

Lemma Math_min_MAX_VALUE (d : float) :
  is_nan d = false → d ≠ infinity → Math_min MAX_VALUE d = d.
Proof.
  intros Hn Hi. unfold Math_min. rewrite Hn.
  change (is_nan MAX_VALUE) with false. cbn [orb].
  rewrite (MAX_VALUE_top d Hn Hi).
  change (is_zero MAX_VALUE) with false. cbn [andb].
  by destruct (PrimFloat.ltb d MAX_VALUE).
Qed.

Lemma foldl_Math_min (ds : list float) (d : float) :
  Forall (fun g => is_nan g = false) (d :: ds) →
  let r := foldl Math_min d ds in
  r ∈ d :: ds ∧ is_nan r = false ∧
  ∀ g, g ∈ d :: ds → PrimFloat.leb r g = true.
Proof.
  intros Hall r.
  assert (r ∈ d :: ds ∧ is_nan r = false ∧
          ∀ g, g ∈ d :: ds → PrimFloat.ltb g r = false) as (Hin & Hr & Hle).
  { subst r. revert d Hall. induction ds as [|g0 ds IH]; intros d Hall.
    - apply Forall_cons_1 in Hall as [Hd _]. simpl.
      split; [by left|]. split; [done|].
      intros g Hg. apply list_elem_of_singleton in Hg as ->. apply ltb_irrefl.
    - apply Forall_cons_1 in Hall as [Hd Hall].
      pose proof Hall as Hall'. apply Forall_cons_1 in Hall' as [Hg0 Hds].
      destruct (Math_min_cases d g0 Hd Hg0) as (Hm & Hmd & Hmg).
      set (m := Math_min d g0) in *.
      assert (Hnm : is_nan m = false) by (destruct Hm as [->| ->]; done).
      destruct (IH m) as (Hin & Hr & Hle); [by constructor|].
      cbn [foldl]. fold m. set (r := foldl Math_min m ds) in *.
      split.
      { apply elem_of_cons in Hin as [->|Hin].
        - destruct Hm as [->| ->]; [by left|right; by left].
        - right. by right. }
      split; [done|]. intros g Hg.
      assert (Hm_r : PrimFloat.ltb m r = false) by (apply Hle; by left).
      assert (Hvia : ∀ x, PrimFloat.ltb x m = false →
                          PrimFloat.ltb x r = false).
      { intros x Hx. destruct (PrimFloat.ltb x r) eqn:E; [|done].
        destruct (ltb_cotrans x m r Hnm E) as [E'|E']; congruence. }
      apply elem_of_cons in Hg as [->|Hg]; [by apply Hvia|].
      apply elem_of_cons in Hg as [->|Hg]; [by apply Hvia|].
      apply Hle. by right. }
  split; [done|]. split; [done|]. intros g Hg.
  apply not_ltb_leb; auto.
  rewrite Forall_forall in Hall. by apply Hall.
Qed.

Lemma scan_min (l : list numeric) (a : numeric) :
  let r := fold_right (fun d acc => if lessThan d acc then d else acc) a l in
  (r = a ∨ r ∈ l) ∧ ∀ v, v ∈ l → lessThan v r = false.
Proof.
  induction l as [|d l [IHm IHl]]; simpl.
  - split; [by left|]. intros v Hv. by apply elem_of_nil in Hv.
  - set (r := fold_right (fun d acc => if lessThan d acc then d else acc) a l) in *.
    destruct (lessThan d r) eqn:E.
    + split; [right; by left|]. intros v Hv.
      apply elem_of_cons in Hv as [->|Hv]; [apply FloatOrder.ltb_irrefl|].
      destruct (lessThan v d) eqn:E'; [|done].
      rewrite <- (IHl v Hv). symmetry. unfold lessThan in *.
      eapply FloatOrder.ltb_trans; eauto.
    + split; [destruct IHm; [by left|right; by right]|].
      intros v Hv. apply elem_of_cons in Hv as [->|Hv]; auto.
Qed.

Lemma scan_max (l : list numeric) (a : numeric) :
  let r := fold_right (fun d acc => if greaterThan d acc then d else acc) a l in
  (r = a ∨ r ∈ l) ∧ ∀ v, v ∈ l → greaterThan v r = false.
Proof.
  induction l as [|d l [IHm IHl]]; simpl.
  - split; [by left|]. intros v Hv. by apply elem_of_nil in Hv.
  - set (r := fold_right (fun d acc => if greaterThan d acc then d else acc) a l) in *.
    destruct (greaterThan d r) eqn:E.
    + split; [right; by left|]. intros v Hv.
      apply elem_of_cons in Hv as [->|Hv]; [apply FloatOrder.ltb_irrefl|].
      destruct (greaterThan v d) eqn:E'; [|done].
      rewrite <- (IHl v Hv). symmetry. unfold greaterThan in *.
      eapply FloatOrder.ltb_trans; eauto.
    + split; [destruct IHm; [by left|right; by right]|].
      intros v Hv. apply elem_of_cons in Hv as [->|Hv]; auto.
Qed.

Lemma arrayMin_least (l : list numeric) :
  l ≠ [] → Forall isNumber l → least (arrayMin l) l.
Proof.
  intros Hne Hall. destruct l as [|d0 l']; [done|].
  unfold arrayMin. set (l := d0 :: l') in *.
  destruct (scan_min l d0) as [Hm Hl].
  set (r := fold_right _ d0 l) in *.
  assert (Hin : r ∈ l) by (destruct Hm as [->|]; [by left|done]).
  split; [done|]. intros v Hv.
  rewrite Forall_forall in Hall.
  destruct (Hall r Hin) as (x & -> & Hx), (Hall v Hv) as (y & -> & Hy).
  apply FloatOrder.not_ltb_leb; try done. apply (Hl _ Hv).
Qed.

Lemma arrayMax_greatest (l : list numeric) :
  l ≠ [] → Forall isNumber l → greatest (arrayMax l) l.
Proof.
  intros Hne Hall. destruct l as [|d0 l']; [done|].
  unfold arrayMax. set (l := d0 :: l') in *.
  destruct (scan_max l d0) as [Hm Hl].
  set (r := fold_right _ d0 l) in *.
  assert (Hin : r ∈ l) by (destruct Hm as [->|]; [by left|done]).
  split; [done|]. intros v Hv.
  rewrite Forall_forall in Hall.
  destruct (Hall r Hin) as (x & -> & Hx), (Hall v Hv) as (y & -> & Hy).
  apply FloatOrder.not_ltb_leb; try done. apply (Hl _ Hv).
Qed.

(** ** Chart construction *)

Lemma setParallelInfo_fold (chart : Chart.t) (l : list SeriesOptions.t)
    (c : Z) :
  0 <= c →
  foldl (fun acc a => acc ≫= fun chart =>
    match SeriesOptions.data a with
    | Some data =>
        let counter := default 0 (Chart.parallelInfo chart) in
        Ok (Chart.set_parallelInfo
              (Some (Z.max counter (Z.of_nat (length data) - 1))) chart)
    | None => Ok chart
    end) (Ok (Chart.set_parallelInfo (Some c) chart)) l
  = Ok (Chart.set_parallelInfo (Some (counterOf c l)) chart).
Proof.
  unfold counterOf. revert c.
  induction l as [|a l IH]; intros c Hc; simpl; [done|].
  destruct (SeriesOptions.data a) as [d|]; simpl.
  - rewrite <- IH by lia. done.
  - by apply IH.
Qed.

(** With a series array the counter is found, whatever the entries. *)
Lemma setParallelInfo_Some (chart : Chart.t) (options : Options.t)
    (ss : list SeriesOptions.t) :
  Options.series options = Some ss →
  setParallelInfo chart options
  = Ok (Chart.set_parallelInfo (Some (counterOf 0 ss)) chart).
Proof.
  intros Hs. unfold setParallelInfo, each. rewrite Hs.
  exact (setParallelInfo_fold chart ss 0 ltac:(lia)).
Qed.

Lemma counterOf_max (c : Z) (ss : list SeriesOptions.t) :
  0 <= c →
  counterOf c ss + 1 = Z.max (c + 1) (Z.of_nat (max_list (dataLengths ss))).
Proof.
  unfold counterOf. revert c.
  induction ss as [|s ss IH]; intros c Hc; simpl; [lia|].
  destruct (SeriesOptions.data s) as [d|]; simpl.
  - rewrite IH by lia. lia.
  - by apply IH.
Qed.

(** An empty series array, or one whose entries define no data, gives the
    counter 0. *)
Lemma setParallelInfo_no_data (chart : Chart.t) (options : Options.t)
    (ss : list SeriesOptions.t) :
  Options.series options = Some ss →
  Forall (fun s => SeriesOptions.data s = None) ss →
  setParallelInfo chart options = Ok (Chart.set_parallelInfo (Some 0) chart).
Proof.
  intros Hs Hall. rewrite (setParallelInfo_Some _ _ ss Hs).
  assert (counterOf 0 ss = 0) as ->; [|done].
  clear Hs. unfold counterOf.
  induction Hall as [|s ss Hd _ IH]; [done|]. simpl. by rewrite Hd.
Qed.

(** C9: every operation is total over possibly-empty inputs; in particular
    [setParallelInfo], called at construction whenever parallel mode is on,
    completes and yields the counter 0 for every options object in which no
    series are configured.  The code does not: on the options
    [{ chart: { parallelCoordinates: true } }], which configure no series,
    [each] is handed [undefined]; [setParallelInfo] and with it the [init]
    handler end in a [TypeError]. *)
Theorem setParallelInfo_without_series (chart : Chart.t) :
  setParallelInfo chart withoutSeries = TypeError ∧
  init chart withoutSeries = TypeError.
Proof. split; reflexivity. Qed.

(** C4, as the claim states it, fails at two inputs.  With parallel mode on
    and an empty series array the handler leaves one Y-axis entry, not none;
    and an X-axis the user typed ['linear'] keeps that type. *)
Lemma init_counterexample :
  (∃ this' options' yAxes,
     init blankChart noSeries = Ok (this', options') ∧
     max_list (dataLengths []) = 0%nat ∧
     Options.yAxis options' = Some (inr yAxes) ∧
     length yAxes = 1%nat) ∧
  (∃ this' options' xAxis,
     init blankChart linearXAxis = Ok (this', options') ∧
     Options.xAxis options' = Some (inl xAxis) ∧
     prop "type" xAxis = VStr "linear").
Proof.
  split.
  - do 3 eexists. split; [vm_compute; reflexivity|]. repeat split.
  - do 3 eexists. split; [vm_compute; reflexivity|]. split; reflexivity.
Qed.

(** C4 (amended): for a chart constructed with parallel coordinates enabled
    and a series array with data lengths L1..Lk, the [init] handler leaves
    [max (u, max Li, 1)] Y-axis entries, where [u] counts the Y-axis
    definitions the user supplied (1 when [yAxis] is absent or a lone
    object): the user's list, padded with empty placeholders.  The X-axis
    options are the defaults [{ opposite: true, type: 'category' }] overlaid
    with the user's first X-axis definition, so the type is ['category'] and
    the placement opposite unless the user set those keys.
    [legend.enabled] becomes [false] when the user left it undefined and is
    kept otherwise, and [boost.seriesThreshold] and
    [plotOptions.series.boostThreshold] are [Number.MAX_SAFE_INTEGER]. *)
Theorem init_provisions (this : Chart.t) (options : Options.t)
    (co : ChartOptions.t) (ss : list SeriesOptions.t) :
  Options.chart options = Some co →
  truthy (ChartOptions.parallelCoordinates co) = true →
  Options.series options = Some ss →
  let user := splat (default (inl []) (Options.yAxis options)) in
  let first := head (splat (default (inl []) (Options.xAxis options))) in
  let userLegend := default [] (Options.legend options) in
  ∃ this' options' yAxes xAxis legend boost plotOptions seriesDefaults,
    init this options = Ok (this', options') ∧
    Options.yAxis options' = Some (inr yAxes) ∧
    yAxes = user ++ replicate (length yAxes - length user) [] ∧
    length yAxes
    = Nat.max (Nat.max (length user) (max_list (dataLengths ss))) 1 ∧
    Options.xAxis options' = Some (inl xAxis) ∧
    xAxis = merge defaultXAxisOptions first ∧
    ((∀ o, first = Some o → binding "type" o = None) →
     prop "type" xAxis = VStr "category") ∧
    ((∀ o, first = Some o → binding "opposite" o = None) →
     prop "opposite" xAxis = VBool true) ∧
    Options.legend options' = Some legend ∧
    (prop "enabled" userLegend = VUndefined →
     prop "enabled" legend = VBool false) ∧
    (prop "enabled" userLegend ≠ VUndefined → legend = userLegend) ∧
    Options.boost options' = Some boost ∧
    prop "seriesThreshold" boost = VNum MAX_SAFE_INTEGER ∧
    Options.plotOptions options' = Some plotOptions ∧
    prop "series" plotOptions = VObj seriesDefaults ∧
    prop "boostThreshold" seriesDefaults = VNum MAX_SAFE_INTEGER.
Proof.
  intros Hc Ht Hs user first userLegend.
  unfold init. rewrite Hc.
  cbn [Chart.hasParallelCoordinates Chart.set_hasParallelCoordinates].
  rewrite Ht. rewrite (setParallelInfo_Some _ _ ss Hs).
  cbn [mbind result_bind Chart.parallelInfo Chart.set_parallelInfo].
  fold user first userLegend.
  pose proof (counterOf_max 0 ss ltac:(lia)) as Hmax.
  set (n := Z.to_nat (counterOf 0 ss + 1 - Z.of_nat (length user))).
  eexists _, _, (user ++ replicate n []), _, _, _, _, _.
  split; [reflexivity|].
  cbn [Options.yAxis Options.xAxis Options.legend Options.boost
       Options.plotOptions].
  split; [reflexivity|].
  assert (Hlen : length (user ++ replicate n ([] : obj))
                 = Nat.max (Nat.max (length user)
                              (max_list (dataLengths ss))) 1).
  { rewrite length_app, length_replicate. subst n. lia. }
  split; [|split; [exact Hlen|]].
  { f_equal. rewrite length_app, length_replicate. f_equal. lia. }
  split; [reflexivity|]. split; [reflexivity|].
  split; [|split].
  - intros Hf. unfold merge. destruct first as [o|]; [|done].
    simpl arg. rewrite prop_doCopy_frame by auto. done.
  - intros Hf. unfold merge. destruct first as [o|]; [|done].
    simpl arg. rewrite prop_doCopy_frame by auto. done.
  - split; [reflexivity|]. split; [|split].
    + intros ->. unfold prop, setProp. by rewrite binding_assign_eq.
    + intros Hne. destruct (prop "enabled" userLegend); done.
    + split; [reflexivity|]. split.
      { unfold mergeInto. simpl. unfold prop, setProp.
        by rewrite binding_assign_eq. }
      split; [reflexivity|].
      unfold mergeInto. simpl. unfold prop at 1, setProp at 1.
      rewrite binding_assign_eq. simpl. split; [reflexivity|].
      unfold prop, setProp. by rewrite binding_assign_eq.
Qed.

(** Three series of lengths 4, 3 and 5 and no Y-axis of the user's: five
    Y-axes. *)
Lemma init_provisions_witness :
  ∃ this' options' yAxes xAxis,
    init blankChart threeSeries = Ok (this', options') ∧
    Options.yAxis options' = Some (inr yAxes) ∧
    length yAxes = 5%nat ∧
    Options.xAxis options' = Some (inl xAxis) ∧
    prop "type" xAxis = VStr "category" ∧
    prop "opposite" xAxis = VBool true.
Proof.
  destruct (init_provisions blankChart threeSeries
              (ChartOptions.make (VBool true))
              [seriesOfLength 4; seriesOfLength 3; seriesOfLength 5]
              eq_refl eq_refl eq_refl)
    as (this' & options' & yAxes & xAxis & legend & boost & plotOptions
        & seriesDefaults & Hrun & Hy & _ & Hlen & Hx & _ & Htype & Hopp & _).
  exists this', options', yAxes, xAxis.
  split; [exact Hrun|]. split; [exact Hy|]. split; [exact Hlen|].
  split; [exact Hx|]. split.
  - apply Htype. intros o [= <-]. reflexivity.
  - apply Hopp. intros o [= <-]. reflexivity.
Defined.

(** ** Axis placement *)

Section Position.
Variable numberToString : float → string.

(** C3: for the Y-axis at ordinal position [i] of a parallel-coordinates
    chart with [N = parallelInfo.counter + 1] dimensions, the positioner
    computes [fraction = (i + 0.5) / N]; in polar mode it sets the [angle]
    option to [360 * fraction]; in linear mode it sets the primary offset
    option to the string [100 * fraction] followed by ['%'], and the size
    next to it to 0, on the options and on the axis. *)
Theorem setParallelPosition_fraction (chart : Chart.t) (this : Axis.t)
    (inverted : bool) (options : obj) (i : nat) (counter : Z) :
  Axis.parallelPosition this = Some i →
  Chart.parallelInfo chart = Some counter →
  let roles := rolesFor inverted in
  let fraction := ((fromNat i + 0.5) / (fromZ counter + 1))%float in
  ∃ this' options',
    setParallelPosition numberToString chart this roles options
    = Ok (this', options') ∧
    (Chart.polar chart = true →
     prop "angle" options' = VNum (360 * fraction)%float) ∧
    (Chart.polar chart = false →
     prop (key_at roles 0) options'
     = VStr (numberToString (100 * fraction)%float ++ "%") ∧
     prop (key_at roles 1) options' = VNum 0 ∧
     Axis.own (key_at roles 1) (Axis.geometry this') = Num 0).
Proof.
  intros Hp Hc roles fraction. unfold setParallelPosition.
  rewrite Hc, Hp. cbn [mbind result_bind]. fold fraction.
  destruct (Chart.polar chart); eexists _, _; (split; [reflexivity|]).
  - split; [|done]. intros _. by assoc_simpl.
  - split; [done|]. intros _.
    destruct inverted;
      cbn [roles rolesFor axisPosition rev app key_at nth Axis.geometry
           Axis.set_geometry];
      repeat split; by assoc_simpl.
Qed.

(** C8: [setParallelPosition] is idempotent: for fixed position, counter,
    polar flag and role order, a second call on the axis and options the
    first call left behind leaves exactly what the first call left. *)
Theorem setParallelPosition_idempotent (chart : Chart.t) (this : Axis.t)
    (inverted : bool) (options : obj) :
  let roles := rolesFor inverted in
  (setParallelPosition numberToString chart this roles options
     ≫= fun '(this', options') =>
          setParallelPosition numberToString chart this' roles options')
  = setParallelPosition numberToString chart this roles options.
Proof.
  intros roles. unfold setParallelPosition.
  destruct (Chart.parallelInfo chart) as [counter|]; [|done].
  cbn [mbind result_bind].
  destruct (Chart.polar chart).
  - cbn [mbind result_bind]. do 2 f_equal.
    apply assign_bound. by assoc_simpl.
  - cbn [mbind result_bind Axis.parallelPosition Axis.set_geometry
         Axis.geometry].
    destruct inverted; cbn [roles rolesFor axisPosition rev app key_at nth].
    all: unfold setProp, Axis.setOwn, Axis.set_geometry; cbn;
         rewrite assign4_twice, assign3_twice by discriminate; reflexivity.
Qed.

(** C7: for a Y-axis positioned in a linear layout, the roles are applied in
    the order left, width, height, top when the chart is not inverted and
    top, height, width, left when it is: the first role receives the offset
    (on the options), the second the size 0, and the two roles of the other
    orientation are [null], on the axis and on its options alike, whatever
    they held before. *)
Theorem afterSetOptions_roles (chart : Chart.t) (axis : Axis.t)
    (userOptions : option obj) (counter : Z) :
  truthy (Chart.hasParallelCoordinates chart) = true →
  Axis.isXAxis axis = false →
  Chart.polar chart = false →
  Chart.parallelInfo chart = Some counter →
  let position :=
    pick (Axis.parallelPosition axis) (length (Chart.yAxis chart)) in
  let offset :=
    VStr (numberToString (100 * fractionOf position counter)%float ++ "%") in
  ∃ axis',
    afterSetOptions numberToString chart axis userOptions = Ok axis' ∧
    let o := Axis.options axis' in
    let g := Axis.geometry axis' in
    if Chart.inverted chart then
      prop "top" o = offset ∧
      prop "height" o = VNum 0 ∧ Axis.own "height" g = Num 0 ∧
      prop "width" o = VNull ∧ Axis.own "width" g = Null ∧
      prop "left" o = VNull ∧ Axis.own "left" g = Null
    else
      prop "left" o = offset ∧
      prop "width" o = VNum 0 ∧ Axis.own "width" g = Num 0 ∧
      prop "height" o = VNull ∧ Axis.own "height" g = Null ∧
      prop "top" o = VNull ∧ Axis.own "top" g = Null.
Proof.
  intros Ht Hx Hp Hc position offset.
  unfold afterSetOptions, setParallelPosition. rewrite Ht, Hx.
  cbn [Axis.set_options Axis.set_parallelPosition Axis.parallelPosition
       Axis.options Axis.geometry Axis.isXAxis].
  rewrite Hc, Hp. cbn [mbind result_bind].
  fold position. fold (fractionOf position counter). fold offset.
  eexists. split; [reflexivity|].
  destruct (Chart.inverted chart);
    cbn [axisPosition rev app key_at nth Axis.options Axis.geometry
         Axis.set_options Axis.set_geometry];
    repeat split; by assoc_simpl.
Qed.

End Position.

(** The second of two axes: the fraction is [(1 + 0.5) / 2], three
    quarters. *)
Lemma setParallelPosition_fraction_witness :
  ∃ this' options',
    setParallelPosition (fun _ => "75") enabledChart secondAxis
      (rolesFor false) []
    = Ok (this', options') ∧
    prop "left" options' = VStr "75%" ∧
    prop "width" options' = VNum 0 ∧
    Axis.own "width" (Axis.geometry this') = Num 0.
Proof.
  destruct (setParallelPosition_fraction (fun _ => "75") enabledChart
              secondAxis false [] 1%nat 1 eq_refl eq_refl)
    as (this' & options' & Hrun & _ & Hlinear).
  exists this', options'. split; [exact Hrun|]. exact (Hlinear eq_refl).
Defined.

Lemma afterSetOptions_roles_witness :
  ∃ axis',
    afterSetOptions (fun _ => "75") enabledChart secondAxis None = Ok axis' ∧
    prop "left" (Axis.options axis') = VStr "75%" ∧
    prop "width" (Axis.options axis') = VNum 0 ∧
    Axis.own "width" (Axis.geometry axis') = Num 0 ∧
    prop "height" (Axis.options axis') = VNull ∧
    Axis.own "height" (Axis.geometry axis') = Null ∧
    prop "top" (Axis.options axis') = VNull ∧
    Axis.own "top" (Axis.geometry axis') = Null.
Proof.
  destruct (afterSetOptions_roles (fun _ => "75") enabledChart secondAxis
              None 1 eq_refl eq_refl eq_refl eq_refl)
    as (axis' & Hrun & Hroles).
  exists axis'. split; [exact Hrun|]. exact Hroles.
Defined.

(** ** Extremes *)

Lemma collect_values (heap : nat → option Series.t) (index : option nat)
    (refs : list nat) (ss : list Series.t) (acc : list numeric) :
  Forall2 (fun r s => heap r = Some s) refs ss →
  foldl (fun acc r => acc ≫= fun currentPoints =>
           series ← match heap r with
                    | Some s => Ok s
                    | None => TypeError
                    end;
           let v := default Undefined (i ← index; Series.yData series !! i) in
           if defined_numeric v then Ok (currentPoints ++ [v])
           else Ok currentPoints) (Ok acc) refs
  = Ok (acc ++ List.filter defined_numeric
          (map (fun s => default Undefined (i ← index; Series.yData s !! i))
             ss)).
Proof.
  intros H. revert acc. induction H as [|r s refs ss Hr _ IH]; intros acc.
  - simpl. by rewrite app_nil_r.
  - cbn [foldl map List.filter]. cbn [mbind result_bind]. rewrite Hr.
    cbn [mbind result_bind].
    destruct (defined_numeric _); rewrite IH; [|done].
    by rewrite <- app_assoc.
Qed.

(** C2: for a non-X axis of a parallel-coordinates chart with parallel
    position [i], the extremes handler sets [dataMin] and [dataMax] to the
    least and the greatest of the values [series.yData[i]] over the series
    bound to the axis, entries that are undefined or null left out (both
    stay [undefined] when nothing is left), and prevents the host's default
    aggregation.  In particular the series [[1,5], [2,null], [3,7]] and
    position 1 give [dataMin = 5] and [dataMax = 7]. *)
Theorem extremes_by_position :
  (∀ (heap : nat → option Series.t) (chart : Chart.t) (this : Axis.t)
     (e : Event.t) (i : nat) (refs : list nat) (ss : list Series.t),
     truthy (Chart.hasParallelCoordinates chart) = true →
     Axis.isXAxis this = false →
     Axis.parallelPosition this = Some i →
     Axis.series this = Some refs →
     Forall2 (fun r s => heap r = Some s) refs ss →
     let values := valuesAt i ss in
     Forall isNumber values →
     ∃ this',
       getSeriesExtremes heap (Some chart) this e
       = Ok (this', Event.make true) ∧
       this' = Axis.set_extremes (arrayMin values) (arrayMax values) this ∧
       (values = [] →
        Axis.dataMin this' = Undefined ∧ Axis.dataMax this' = Undefined) ∧
       (values ≠ [] →
        least (Axis.dataMin this') values ∧
        greatest (Axis.dataMax this') values)) ∧
  (∃ this',
     getSeriesExtremes threeBound (Some enabledChart) secondAxis
       (Event.make false)
     = Ok (this', Event.make true) ∧
     Axis.dataMin this' = Num 5 ∧ Axis.dataMax this' = Num 7).
Proof.
  split.
  - intros heap chart this e i refs ss Ht Hx Hi Hs Hr values Hn.
    unfold getSeriesExtremes. rewrite Ht, Hx, Hs. cbn [andb negb each].
    pose proof (collect_values heap (Axis.parallelPosition this) refs ss []
                  Hr) as Hc.
    cbv zeta in Hc |- *. rewrite Hc, Hi.
    cbn [mbind result_bind app option_bind]. fold (valuesAt i ss). fold values.
    eexists. split; [reflexivity|]. split; [reflexivity|].
    cbn [Axis.dataMin Axis.dataMax Axis.set_extremes]. split.
    + intros ->. done.
    + intros Hne. split; [by apply arrayMin_least|by apply arrayMax_greatest].
  - eexists. split; [vm_compute; reflexivity|]. split; reflexivity.
Qed.

(** The three series of the example, through the general statement. *)
Lemma extremes_by_position_witness :
  ∃ this',
    getSeriesExtremes threeBound (Some enabledChart) secondAxis
      (Event.make false)
    = Ok (this', Event.make true) ∧
    least (Axis.dataMin this') [Num 5; Num 7] ∧
    greatest (Axis.dataMax this') [Num 5; Num 7].
Proof.
  destruct (proj1 extremes_by_position threeBound enabledChart secondAxis
              (Event.make false) 1%nat [0; 1; 2]%nat
              [seriesOf [Num 1; Num 5]; seriesOf [Num 2; Null];
               seriesOf [Num 3; Num 7]])
    as (this' & Hrun & _ & _ & Hex).
  - reflexivity.
  - reflexivity.
  - reflexivity.
  - reflexivity.
  - repeat constructor.
  - repeat constructor; eexists; (split; [reflexivity|vm_compute; reflexivity]).
  - exists this'. split; [exact Hrun|]. apply Hex. discriminate.
Defined.

(** ** Binding and destruction *)

Section Binding.
Variable insert : nat → list nat → list nat.

Lemma bindAll (ref : nat) (l : list (option Axis.t)) :
  Forall (fun a => ∃ axis c, a = Some axis ∧ Axis.series axis = Some c) l →
  ∃ l',
    foldr (fun a r => bindOne insert ref a ≫= fun b =>
                      r ≫= fun bs => Ok (b :: bs)) (Ok []) l
    = Ok l' ∧
    length l' = length l ∧
    ∀ i axis, l !! i = Some (Some axis) →
      ∃ c, Axis.series axis = Some c ∧
           l' !! i = Some (Some (bound insert ref axis c)).
Proof.
  induction 1 as [|a l (axis & c & -> & Hc) _ (l' & Hrun & Hlen & Hat)].
  - exists []. repeat split; auto. intros i axis Hi. by destruct i.
  - exists (Some (bound insert ref axis c) :: l'). cbn [foldr].
    rewrite Hrun. unfold bindOne at 1. rewrite Hc. cbn [mbind result_bind].
    split; [done|]. split; [simpl; lia|].
    intros [|i] axis' Hi; simpl in Hi |- *.
    + injection Hi as <-. eauto.
    + by apply Hat.
Qed.

(** C6: for a series bound in a chart with parallel coordinates enabled, the
    binding step inserts the series into the owned-series collection of every
    axis of the chart and sets each such axis's [isDirty] to [true], and sets
    the series' [xAxis] and [yAxis] to [chart.xAxis[0]] and [chart.yAxis[0]];
    with parallel coordinates disabled it is the host's [bindAxes],
    unchanged.  [insert] is the host's: all that is asked of it is that the
    collection it returns holds the series. *)
Theorem bindAxes_every_axis
    (proceed : Chart.t → nat → Series.t → result (Chart.t * Series.t))
    (chart : Chart.t) (ref : nat) (this : Series.t) :
  (∀ s c, s ∈ insert s c) →
  (truthy (Chart.hasParallelCoordinates chart) = true →
   ∀ l, Chart.axes chart = Some l →
     Forall (fun a => ∃ axis c, a = Some axis ∧ Axis.series axis = Some c) l →
     ∃ chart' this' l',
       bindAxes insert proceed chart ref this = Ok (chart', this') ∧
       Series.xAxis this' = Chart.xAxis chart !! 0%nat ∧
       Series.yAxis this' = Chart.yAxis chart !! 0%nat ∧
       Series.yData this' = Series.yData this ∧
       Series.points this' = Series.points this ∧
       Series.closestPointRangePx this' = Series.closestPointRangePx this ∧
       Chart.axes chart' = Some l' ∧
       Chart.xAxis chart' = Chart.xAxis chart ∧
       Chart.yAxis chart' = Chart.yAxis chart ∧
       Chart.hasParallelCoordinates chart'
       = Chart.hasParallelCoordinates chart ∧
       Chart.parallelInfo chart' = Chart.parallelInfo chart ∧
       length l' = length l ∧
       ∀ i axis, l !! i = Some (Some axis) →
         ∃ c axis',
           Axis.series axis = Some c ∧
           l' !! i = Some (Some axis') ∧
           axis' = bound insert ref axis c ∧
           Axis.series axis' = Some (insert ref c) ∧
           ref ∈ insert ref c ∧
           Axis.isDirty axis' = true ∧
           Axis.isXAxis axis' = Axis.isXAxis axis ∧
           Axis.options axis' = Axis.options axis ∧
           Axis.parallelPosition axis' = Axis.parallelPosition axis ∧
           Axis.geometry axis' = Axis.geometry axis) ∧
  (truthy (Chart.hasParallelCoordinates chart) = false →
   bindAxes insert proceed chart ref this = proceed chart ref this).
Proof.
  intros Hins. split.
  - intros Ht l Hl Hall. unfold bindAxes. rewrite Ht, Hl.
    destruct (bindAll ref l Hall) as (l' & Hrun & Hlen & Hat).
    eexists _, _, l'. split.
    + cbv zeta.
      rewrite (each_ext _
                 (fun acc a => bindOne insert ref a ≫= fun b =>
                               Ok (acc ++ [b]))).
      * rewrite each_push, Hrun. reflexivity.
      * intros acc [axis|]; [|done]. unfold bindOne.
        by destruct (Axis.series axis).
    + cbn [Series.xAxis Series.yAxis Series.yData Series.points
           Series.closestPointRangePx Series.set_axes Chart.axes Chart.xAxis
           Chart.yAxis Chart.hasParallelCoordinates Chart.parallelInfo
           Chart.set_axes].
      do 11 (split; [done|]).
      intros i axis Hi. destruct (Hat i axis Hi) as (c & Hc & Hi').
      exists c, (bound insert ref axis c).
      split; [done|]. split; [done|]. split; [done|].
      unfold bound.
      cbn [Axis.series Axis.isDirty Axis.isXAxis Axis.options
           Axis.parallelPosition Axis.geometry Axis.set_isDirty
           Axis.set_series].
      split; [done|]. split; [apply Hins|]. done.
  - intros Ht. unfold bindAxes. by rewrite Ht.
Qed.

End Binding.

(** A shared X-axis and two Y-axes, [insert] pushing to the end: the series
    is given the first X-axis and the first Y-axis, and every axis holds
    it. *)
Lemma bindAxes_every_axis_witness :
  ∃ chart' this' l',
    bindAxes (fun s c => c ++ [s]) (fun c _ s => Ok (c, s)) axesChart 7%nat
      (seriesOf [])
    = Ok (chart', this') ∧
    Series.xAxis this' = Some 0%nat ∧
    Series.yAxis this' = Some 1%nat ∧
    Chart.axes chart' = Some l' ∧
    length l' = 3%nat ∧
    ∃ axis', l' !! 2%nat = Some (Some axis') ∧
             Axis.series axis' = Some [7%nat] ∧
             Axis.isDirty axis' = true.
Proof.
  destruct (bindAxes_every_axis (fun s c => c ++ [s])
              (fun c _ s => Ok (c, s)) axesChart 7%nat (seriesOf []))
    as [Hon _].
  - intros s c. apply elem_of_app. right. by left.
  - destruct (Hon eq_refl
                [Some sharedAxis; Some (axisAtLeft 0); Some (axisAtLeft 10)]
                eq_refl)
      as (chart' & this' & l' & Hrun & Hx & Hy & _ & _ & _ & Hl & _ & _ & _
          & _ & Hlen & Hat).
    + repeat constructor; eexists _, _; split; reflexivity.
    + destruct (Hat 2%nat (axisAtLeft 10) eq_refl)
        as (c & axis' & Hc & Hi & _ & Hs & _ & Hd & _).
      injection Hc as <-.
      exists chart', this', l'. split; [exact Hrun|]. split; [exact Hx|].
      split; [exact Hy|]. split; [exact Hl|]. split; [exact Hlen|].
      exists axis'. split; [exact Hi|]. split; [exact Hs|exact Hd].
Defined.

Section Destroy.
Variable erase : list nat → nat → list nat.

Lemma release_all (ref : nat) (l : list (option Axis.t)) :
  foldr (fun a r => Ok (released erase ref a) ≫= fun b =>
                    r ≫= fun bs => Ok (b :: bs)) (Ok []) l
  = Ok (map (released erase ref) l).
Proof.
  induction l as [|a l IH]; [done|]. cbn [foldr map]. rewrite IH. done.
Qed.

(** C10: the destroy handler never fails.  With [chart.axes] absent it
    iterates an empty list and leaves the chart as it is; an entry of
    [chart.axes] that is null, or an axis without a series collection, is
    skipped; every other axis has the series erased from its collection and
    is marked dirty. *)
Theorem destroy_never_fails (chart : Chart.t) (ref : nat) :
  ∃ chart',
    destroy erase chart ref = Ok chart' ∧
    (Chart.axes chart = None → chart' = chart) ∧
    (truthy (Chart.hasParallelCoordinates chart) = true →
     ∀ l, Chart.axes chart = Some l →
       ∃ l',
         Chart.axes chart' = Some l' ∧
         length l' = length l ∧
         ∀ i a, l !! i = Some a →
           l' !! i = Some (released erase ref a) ∧
           (a = None → released erase ref a = None) ∧
           (∀ axis, a = Some axis → Axis.series axis = None →
                    released erase ref a = Some axis)).
Proof.
  unfold destroy.
  destruct (truthy (Chart.hasParallelCoordinates chart)) eqn:Ht.
  - cbv zeta.
    rewrite (each_ext _
               (fun acc a => Ok (released erase ref a) ≫= fun b =>
                             Ok (acc ++ [b]))).
    2:{ intros acc [a|]; [|done]. cbn [mbind result_bind released].
        by destruct (Axis.series a). }
    rewrite each_push, release_all. cbn [mbind result_bind app].
    eexists. split; [reflexivity|]. split.
    + intros Hn. rewrite Hn. destruct chart; simpl in *; by subst.
    + intros _ l Hl. rewrite Hl. cbn [fmap option_fmap option_map default].
      exists (map (released erase ref) l).
      split; [by destruct chart|]. split; [by rewrite length_map|].
      intros i a Hi. rewrite list_lookup_fmap, Hi. split; [done|].
      split; [by intros ->|]. intros axis -> Hs. simpl. by rewrite Hs.
  - eexists. split; [reflexivity|]. split; [done|]. done.
Qed.

End Destroy.

(** ** Point translation *)

Lemma gaps_nil (xs : list float) : (length xs < 2)%nat → gaps xs = [].
Proof. destruct xs as [|a [|b xs]]; simpl; [done|done|lia]. Qed.

Lemma gaps_cons (xs : list float) : (2 <= length xs)%nat → gaps xs ≠ [].
Proof. destruct xs as [|a [|b xs]]; simpl; [lia|lia|done]. Qed.

Section Translate.
Variable translate : Axis.t → numeric → numeric.
Variable isInsidePlot : Chart.t → numeric → numeric → bool → bool.

Lemma axisCoordinate_Num (chart : Chart.t) (axis : Axis.t) :
  ∃ x, axisCoordinate chart axis = Num x.
Proof.
  unfold axisCoordinate. destruct (Chart.polar chart).
  - destruct (truthy_numeric (Axis.angleRad axis)) eqn:E; [|eauto].
    destruct (Axis.angleRad axis) as [| |x]; [done|done|eauto].
  - destruct (Chart.inverted chart); eauto.
Qed.

Lemma translatePoints_run (chart : Chart.t) (points : list Point.t) :
  ∀ (i : nat) (closest : float) (lastPlotX : numeric),
  (∀ j p, points !! j = Some p → defined_numeric (Point.y p) = true →
          is_Some (Chart.axisAt chart (Chart.yAxis chart) (i + j))) →
  ∃ points',
    translatePoints translate isInsidePlot chart i points closest lastPlotX
    = Ok (points',
          foldl Math_min closest
            (gaps (previous lastPlotX ++ definedPlotX chart i points))) ∧
    length points' = length points ∧
    ∀ j p, points !! j = Some p →
      (defined_numeric (Point.y p) = false →
       points' !! j = Some (Point.set_isNull true p)) ∧
      (defined_numeric (Point.y p) = true →
       ∃ axis, Chart.axisAt chart (Chart.yAxis chart) (i + j) = Some axis ∧
               points' !! j = Some (translated translate isInsidePlot chart axis p)).
Proof.
  induction points as [|point rest IH]; intros i closest lastPlotX Hax.
  - exists []. simpl. split.
    + by destruct lastPlotX.
    + split; [done|]. intros j p Hj. by destruct j.
  - assert (Hrest : ∀ j p, rest !! j = Some p →
              defined_numeric (Point.y p) = true →
              is_Some (Chart.axisAt chart (Chart.yAxis chart) (S i + j))).
    { intros j p Hj Hd. replace (S i + j)%nat with (i + S j)%nat by lia.
      by apply (Hax (S j) p). }
    cbn [translatePoints definedPlotX].
    destruct (defined_numeric (Point.y point)) eqn:Hd.
    + destruct (Hax 0%nat point eq_refl Hd) as [axis Haxis].
      rewrite Nat.add_0_r in Haxis. rewrite Haxis.
      cbn [mbind result_bind]. fold (axisCoordinate chart axis).
      destruct (axisCoordinate_Num chart axis) as [x Hx].
      set (closest' := match lastPlotX with
                       | Undefined => closest
                       | _ => Math_min closest
                                (abs (toNumber (axisCoordinate chart axis)
                                      - toNumber lastPlotX))
                       end).
      destruct (IH (S i) closest' (axisCoordinate chart axis) Hrest)
        as (rest' & Hrun & Hlen & Hat).
      rewrite Hrun. cbn [mbind result_bind].
      exists (translated translate isInsidePlot chart axis point :: rest'). split.
      * unfold translated. do 2 f_equal. subst closest'. rewrite Hx.
        destruct lastPlotX; reflexivity.
      * split; [simpl; lia|]. intros [|j] p Hj; simpl in Hj.
        -- injection Hj as <-. split; [congruence|]. intros _.
           exists axis. by rewrite Nat.add_0_r.
        -- replace (i + S j)%nat with (S i + j)%nat by lia. by apply Hat.
    + destruct (IH (S i) closest lastPlotX Hrest)
        as (rest' & Hrun & Hlen & Hat).
      rewrite Hrun. cbn [mbind result_bind].
      exists (Point.set_isNull true point :: rest'). split; [done|].
      split; [simpl; lia|]. intros [|j] p Hj; simpl in Hj.
      * injection Hj as <-. split; [done|congruence].
      * replace (i + S j)%nat with (S i + j)%nat by lia. by apply Hat.
Qed.

(** C5: for a series translated in a parallel-coordinates chart in which
    every defined point has a Y-axis for its dimension, a point whose y value
    is undefined (or null) is marked [isNull] and takes no part in the
    closest-point-range tracking, while a defined point gets [plotX] from the
    geometry of the axis of its dimension (the angle in polar mode, the
    offset-derived coordinate in inverted or normal orientation), [clientX]
    likewise, [plotY] from that axis's value-to-pixel translation and
    [isInside] from the chart's plot-box test; nothing else of a point or of
    the series changes.  [closestPointRangePx] is [Math.min] over
    [Number.MAX_VALUE] and the absolute differences between the [plotX] of
    consecutive defined points: [Number.MAX_VALUE] when fewer than two points
    are defined, and the least difference when the differences are
    finite. *)
Theorem afterTranslate_points (chart : Chart.t) (this : Series.t)
    (points : list Point.t) :
  truthy (Chart.hasParallelCoordinates chart) = true →
  Series.points this = Some points →
  (∀ i p, points !! i = Some p → defined_numeric (Point.y p) = true →
          is_Some (Chart.axisAt chart (Chart.yAxis chart) i)) →
  let xs := definedPlotX chart 0 points in
  ∃ this' points' closest,
    afterTranslate translate isInsidePlot chart this = Ok this' ∧
    Series.points this' = Some points' ∧
    Series.closestPointRangePx this' = Num closest ∧
    Series.yData this' = Series.yData this ∧
    Series.xAxis this' = Series.xAxis this ∧
    Series.yAxis this' = Series.yAxis this ∧
    length points' = length points ∧
    (∀ i p, points !! i = Some p →
       ∃ p',
         points' !! i = Some p' ∧
         Point.x p' = Point.x p ∧
         Point.y p' = Point.y p ∧
         Point.value p' = Point.value p ∧
         Point.formattedValue p' = Point.formattedValue p ∧
         (defined_numeric (Point.y p) = false →
          Point.isNull p' = true ∧
          Point.plotX p' = Point.plotX p ∧
          Point.clientX p' = Point.clientX p ∧
          Point.plotY p' = Point.plotY p ∧
          Point.isInside p' = Point.isInside p) ∧
         (defined_numeric (Point.y p) = true →
          ∃ axis,
            Chart.axisAt chart (Chart.yAxis chart) i = Some axis ∧
            Point.plotX p' = axisCoordinate chart axis ∧
            Point.clientX p' = axisCoordinate chart axis ∧
            Point.plotY p' = translate axis (Point.y p) ∧
            Point.isInside p'
            = Some (isInsidePlot chart (axisCoordinate chart axis)
                      (translate axis (Point.y p)) (Chart.inverted chart)) ∧
            Point.isNull p' = Point.isNull p)) ∧
    closest = foldl Math_min MAX_VALUE (gaps xs) ∧
    ((length xs < 2)%nat → closest = MAX_VALUE) ∧
    ((2 <= length xs)%nat →
     Forall (fun g => is_finite g = true) (gaps xs) →
     closest ∈ gaps xs ∧
     ∀ g, g ∈ gaps xs → PrimFloat.leb closest g = true).
Proof.
  intros Ht Hp Hax xs. unfold afterTranslate. rewrite Ht, Hp.
  destruct (translatePoints_run chart points 0 MAX_VALUE Undefined Hax)
    as (points' & Hrun & Hlen & Hat).
  cbv zeta. simpl (default _ _). rewrite Hrun.
  cbn [mbind result_bind fmap option_fmap option_map].
  cbn [previous app]. fold xs.
  eexists _, points', _. split; [reflexivity|].
  cbn [Series.points Series.closestPointRangePx Series.yData Series.xAxis
       Series.yAxis Series.set_translated].
  do 6 (split; [done|]). split; [|split; [reflexivity|split]].
  - intros i p Hi. destruct (Hat i p Hi) as [Hnull Hdef].
    destruct (defined_numeric (Point.y p)) eqn:Hd.
    + destruct (Hdef eq_refl) as (axis & Haxis & Hi').
      eexists. split; [exact Hi'|]. unfold translated.
      cbn [Point.x Point.y Point.value Point.formattedValue Point.isNull
           Point.plotX Point.clientX Point.plotY Point.isInside
           Point.set_plot].
      do 4 (split; [done|]). split; [done|]. intros _. by exists axis.
    + eexists. split; [exact (Hnull eq_refl)|].
      cbn [Point.x Point.y Point.value Point.formattedValue Point.isNull
           Point.plotX Point.clientX Point.plotY Point.isInside
           Point.set_isNull].
      do 4 (split; [done|]). split; [done|]. done.
  - intros Hlt. by rewrite gaps_nil.
  - intros Hge Hfin. pose proof (gaps_cons xs Hge) as Hne.
    destruct (gaps xs) as [|d ds]; [done|]. cbn [foldl].
    pose proof Hfin as Hfin'. apply Forall_cons_1 in Hfin' as [Hf _].
    apply is_finite_number in Hf as [Hd Hi].
    rewrite (Math_min_MAX_VALUE d Hd Hi).
    destruct (foldl_Math_min ds d) as (Hin & _ & Hle); [|done].
    eapply Forall_impl; [exact Hfin|].
    intros g Hg. by apply is_finite_number in Hg as [? _].
Qed.
End Translate.

(** Three axes at 10, 30 and 70 pixels and a series whose middle value is
    missing: the middle point is marked null, the last one is placed 60
    pixels into the plot, and the two defined points are 60 pixels apart. *)
Lemma afterTranslate_points_witness :
  ∃ this' points' closest,
    afterTranslate (fun _ y => y) (fun _ _ _ _ => true) threeAxes
      gappedSeries
    = Ok this' ∧
    Series.points this' = Some points' ∧
    Series.closestPointRangePx this' = Num closest ∧
    closest ∈ [60%float] ∧
    (∃ p', points' !! 1%nat = Some p' ∧ Point.isNull p' = true) ∧
    (∃ p', points' !! 2%nat = Some p' ∧ Point.plotX p' = Num 60 ∧
           Point.plotY p' = Num 6 ∧ Point.isInside p' = Some true).
Proof.
  destruct (afterTranslate_points (fun _ y => y) (fun _ _ _ _ => true)
              threeAxes gappedSeries
              [pointAt (Num 4); pointAt Undefined; pointAt (Num 6)]
              eq_refl eq_refl)
    as (this' & points' & closest & Hrun & Hps & Hc & _ & _ & _ & _ & Hat
        & _ & _ & Hmin).
  - intros [|[|[|i]]] p Hi Hd; simpl in Hi; try discriminate;
      injection Hi as <-; try discriminate; vm_compute; eauto.
  - exists this', points', closest. split; [exact Hrun|].
    split; [exact Hps|]. split; [exact Hc|]. split.
    { apply Hmin; [vm_compute; lia|repeat constructor]. }
    split.
    + destruct (Hat 1%nat (pointAt Undefined) eq_refl)
        as (p' & Hi & _ & _ & _ & _ & Hnull & _).
      exists p'. split; [exact Hi|]. apply (Hnull eq_refl).
    + destruct (Hat 2%nat (pointAt (Num 6)) eq_refl)
        as (p' & Hi & _ & _ & _ & _ & _ & Hdef).
      destruct (Hdef eq_refl) as (axis & Haxis & Hx & _ & Hy & Hin & _).
      injection Haxis as <-.
      exists p'. split; [exact Hi|]. split; [exact Hx|].
      split; [exact Hy|exact Hin].
Defined.

(** A series with four values on a chart with three Y-axes: the fourth point
    has a value and no axis, and the handler throws.  And two axes of which
    one lies infinitely far out: the only difference is [Infinity], and
    [closestPointRangePx] is [Number.MAX_VALUE]. *)
Lemma afterTranslate_counterexample :
  (afterTranslate (fun _ y => y) (fun _ _ _ _ => true) threeAxes longSeries
   = TypeError ∧
   ∃ p, (Series.points longSeries ≫= fun ps => ps !! 3%nat) = Some p ∧
        defined_numeric (Point.y p) = true ∧
        Chart.axisAt threeAxes (Chart.yAxis threeAxes) 3 = None) ∧
  (∃ this',
     afterTranslate (fun _ y => y) (fun _ _ _ _ => true) farAxes pairSeries
     = Ok this' ∧
     Series.closestPointRangePx this' = Num MAX_VALUE ∧
     gaps (definedPlotX farAxes 0 (default [] (Series.points pairSeries)))
     = [infinity]).
Proof.
  split.
  - split; [vm_compute; reflexivity|].
    exists (pointAt (Num 4)). repeat split.
  - eexists. split; [vm_compute; reflexivity|].
    split; vm_compute; reflexivity.
Qed.

(** ** Label formatting *)

Section Label.
Variable numberToString : float → string.
Variable format : value → Point.t → value.
Variable dateFormat : value → numeric → value.

(** X16: the order the code resolves the formatted value in: an explicit format,
    then the datetime format, then the category name, then the raw value. *)
Lemma addFormattedValue_resolution (proceed : Point.t → Config.t)
    (chart : Chart.t) (this : Point.t) (yAxis : Axis.t)
    (labelsFormat : value) :
  truthy (Chart.hasParallelCoordinates chart) = true →
  defined (Config.formattedValue (proceed this)) = false →
  Chart.axisAt chart (Chart.yAxis chart) (Point.x this) = Some yAxis →
  get (prop "labels" (Axis.options yAxis)) "format" = Ok labelsFormat →
  let labelFormat :=
    pick_value (prop "tooltipValueFormat" (Axis.options yAxis))
      labelsFormat in
  let categories := prop "categories" (Axis.options yAxis) in
  let written (v : value) (p : Point.t) :=
    Ok (Config.make v, Point.set_formattedValue v p) in
  let run :=
    addFormattedValue numberToString format dateFormat proceed (Some chart)
      this in
  (truthy labelFormat = true →
   let ctx := Point.set_value (of_numeric (Point.y this)) this in
   run = written (format labelFormat ctx) ctx) ∧
  (truthy labelFormat = false → Axis.isDatetimeAxis yAxis = true →
   ∀ unit fmt,
     Axis.unitName yAxis = Some unit →
     get (prop "dateTimeLabelFormats" (Axis.options yAxis)) unit = Ok fmt →
     run = written (dateFormat fmt (Point.y this)) this) ∧
  (truthy labelFormat = false → Axis.isDatetimeAxis yAxis = false →
   truthy categories = true →
   run = written (elemAt numberToString categories (Point.y this)) this) ∧
  (truthy labelFormat = false → Axis.isDatetimeAxis yAxis = false →
   truthy categories = false →
   run = written (of_numeric (Point.y this)) this).
Proof.
  intros Ht Hd Ha Hl labelFormat categories written run.
  subst run. unfold addFormattedValue. rewrite Ht, Hd, Ha.
  cbn [andb negb mbind result_bind]. rewrite Hl. cbn [mbind result_bind].
  fold labelFormat categories.
  repeat split.
  - intros ->. done.
  - intros -> -> unit fmt -> Hf. cbn [mbind result_bind]. by rewrite Hf.
  - intros -> -> ->. done.
  - intros -> -> ->. done.
Qed.

(** C1: with no explicit format, a categorical Y-axis is to show the
    category name at the point's raw value, and only an axis that is not
    categorical its datetime format.  The code asks for the datetime axis
    first: on a datetime axis that lists the categories ['low', 'high'], the
    point with the value 1 is given the date text, written to the config and
    to the point, where the category at 1 is ['high']. *)
Theorem addFormattedValue_datetime_first :
  addFormattedValue numberToString format dateFormat
    (fun _ => Config.make VUndefined) (Some datedChart) datedPoint
  = Ok (Config.make (dateFormat (VStr "%e. %b") (Num 1)),
        Point.set_formattedValue (dateFormat (VStr "%e. %b") (Num 1))
          datedPoint) ∧
  truthy (prop "categories" (Axis.options datedAxis)) = true ∧
  elemAt numberToString (prop "categories" (Axis.options datedAxis))
    (Point.y datedPoint) = VStr "high".
Proof.
  split; [reflexivity|]. split; [reflexivity|]. vm_compute. reflexivity.
Qed.

End Label.

(** ** Further properties of chart construction *)

Lemma dataLengths_bound (ss : list SeriesOptions.t) (s : SeriesOptions.t)
    (data : list value) :
  s ∈ ss → SeriesOptions.data s = Some data →
  (length data <= max_list (dataLengths ss))%nat.
Proof.
  intros Hin Hd. induction ss as [|s' ss IH]; [by apply elem_of_nil in Hin|].
  apply elem_of_cons in Hin as [<-|Hin].
  - unfold dataLengths, max_list. cbn. rewrite Hd. cbn. lia.
  - specialize (IH Hin). unfold dataLengths, max_list in *. cbn.
    destruct (SeriesOptions.data s'); cbn; lia.
Qed.

(** X1: the counter is the largest data length less one, and 0 when that would
    be negative; nothing else of the chart changes. *)
Theorem setParallelInfo_counter (chart : Chart.t) (options : Options.t)
    (ss : list SeriesOptions.t) :
  Options.series options = Some ss →
  ∃ counter,
    setParallelInfo chart options
    = Ok (Chart.set_parallelInfo (Some counter) chart) ∧
    counter = Z.max 0 (Z.of_nat (max_list (dataLengths ss)) - 1).
Proof.
  intros Hs. exists (counterOf 0 ss).
  split; [by apply setParallelInfo_Some|].
  pose proof (counterOf_max 0 ss ltac:(lia)). lia.
Qed.

Lemma setParallelInfo_counter_witness :
  setParallelInfo blankChart threeSeries
  = Ok (Chart.set_parallelInfo (Some 4) blankChart).
Proof.
  destruct (setParallelInfo_counter blankChart threeSeries
              [seriesOfLength 4; seriesOfLength 3; seriesOfLength 5] eq_refl)
    as (counter & Hrun & ->).
  exact Hrun.
Defined.

(** X2: after construction in parallel mode every data index of every series
    has a Y-axis definition, and the counter points at one of them. *)
Theorem init_axis_per_data_index (this : Chart.t) (options : Options.t)
    (co : ChartOptions.t) (ss : list SeriesOptions.t) :
  Options.chart options = Some co →
  truthy (ChartOptions.parallelCoordinates co) = true →
  Options.series options = Some ss →
  ∃ this' options' yAxes counter,
    init this options = Ok (this', options') ∧
    Options.yAxis options' = Some (inr yAxes) ∧
    Chart.parallelInfo this' = Some counter ∧
    0 <= counter < Z.of_nat (length yAxes) ∧
    ∀ s data, s ∈ ss → SeriesOptions.data s = Some data →
              (length data <= length yAxes)%nat.
Proof.
  intros Hc Ht Hs. unfold init. rewrite Hc.
  cbn [Chart.hasParallelCoordinates Chart.set_hasParallelCoordinates].
  rewrite Ht, (setParallelInfo_Some _ _ ss Hs).
  cbn [mbind result_bind Chart.parallelInfo Chart.set_parallelInfo].
  pose proof (counterOf_max 0 ss ltac:(lia)) as Hmax.
  eexists _, _, _, _. split; [reflexivity|].
  cbn [Options.yAxis]. split; [reflexivity|]. split; [reflexivity|].
  rewrite length_app, length_replicate. split; [lia|].
  intros s data Hin Hd. pose proof (dataLengths_bound ss s data Hin Hd). lia.
Qed.

Lemma init_axis_per_data_index_witness :
  ∃ this' options' yAxes,
    init blankChart threeSeries = Ok (this', options') ∧
    Options.yAxis options' = Some (inr yAxes) ∧
    (5 <= length yAxes)%nat.
Proof.
  destruct (init_axis_per_data_index blankChart threeSeries
              (ChartOptions.make (VBool true))
              [seriesOfLength 4; seriesOfLength 3; seriesOfLength 5]
              eq_refl eq_refl eq_refl)
    as (this' & options' & yAxes & counter & Hrun & Hy & _ & _ & Hall).
  exists this', options', yAxes. split; [exact Hrun|]. split; [exact Hy|].
  apply (Hall (seriesOfLength 5) (replicate 5 (VNum 1))); [|reflexivity].
  do 2 right. by left.
Defined.

(** X3: the [init] handler throws in exactly one situation: parallel mode is
    requested and the options have no [series] array.  With the mode off the
    options object is not touched. *)
Theorem init_fails_iff (this : Chart.t) (options : Options.t) :
  (init this options = TypeError ↔
   truthy (requested options) = true ∧ Options.series options = None) ∧
  (truthy (requested options) = false →
   init this options
   = Ok (Chart.set_hasParallelCoordinates (requested options) this, options)).
Proof.
  unfold init. fold (requested options).
  cbn [Chart.hasParallelCoordinates Chart.set_hasParallelCoordinates].
  destruct (truthy (requested options)) eqn:Ht.
  - split; [|done]. destruct (Options.series options) as [ss|] eqn:Hs.
    + rewrite (setParallelInfo_Some _ _ ss Hs).
      cbn [mbind result_bind Chart.parallelInfo Chart.set_parallelInfo].
      split; [done|]. by intros [_ ?].
    + unfold setParallelInfo. rewrite Hs. cbn [each mbind result_bind]. done.
  - split; [|done]. split; [done|]. by intros [? _].
Qed.

(** X4: of the user's [boost] and [plotOptions] only the two thresholds are
    overwritten: every other key keeps its value, also inside
    [plotOptions.series]. *)
Theorem init_keeps_user_settings (this : Chart.t) (options : Options.t)
    (ss : list SeriesOptions.t) :
  truthy (requested options) = true →
  Options.series options = Some ss →
  ∃ this' options' boost plotOptions userSeries,
    init this options = Ok (this', options') ∧
    Options.boost options' = Some boost ∧
    Options.plotOptions options' = Some plotOptions ∧
    userSeries
    = match prop "series" (default [] (Options.plotOptions options)) with
      | VObj o => o
      | _ => []
      end ∧
    (∀ k, k ≠ "seriesThreshold" →
          prop k boost = prop k (default [] (Options.boost options))) ∧
    (∀ k, k ≠ "series" →
          prop k plotOptions
          = prop k (default [] (Options.plotOptions options))) ∧
    ∃ series,
      prop "series" plotOptions = VObj series ∧
      ∀ k, k ≠ "boostThreshold" → prop k series = prop k userSeries.
Proof.
  intros Ht Hs. unfold init. fold (requested options).
  cbn [Chart.hasParallelCoordinates Chart.set_hasParallelCoordinates].
  rewrite Ht, (setParallelInfo_Some _ _ ss Hs).
  cbn [mbind result_bind Chart.parallelInfo Chart.set_parallelInfo].
  eexists _, _, _, _, _. split; [reflexivity|].
  cbn [Options.boost Options.plotOptions].
  split; [reflexivity|]. split; [reflexivity|]. split; [reflexivity|].
  unfold mergeInto. cbn [doCopy]. unfold prop, setProp.
  split; [|split].
  - intros k Hk. by rewrite binding_assign_ne.
  - intros k Hk. by rewrite binding_assign_ne.
  - eexists. rewrite binding_assign_eq. split; [reflexivity|].
    intros k Hk. cbn [default from_option id].
    by rewrite binding_assign_ne.
Qed.

Lemma init_keeps_user_settings_witness :
  ∃ this' options' boost plotOptions series,
    init blankChart tunedOptions = Ok (this', options') ∧
    Options.boost options' = Some boost ∧
    Options.plotOptions options' = Some plotOptions ∧
    prop "enabled" boost = VBool true ∧
    prop "line" plotOptions = VObj [] ∧
    prop "series" plotOptions = VObj series ∧
    prop "color" series = VStr "red".
Proof.
  destruct (init_keeps_user_settings blankChart tunedOptions
              [seriesOfLength 2] eq_refl eq_refl)
    as (this' & options' & boost & plotOptions & userSeries & Hrun & Hb & Hp
        & -> & Hboost & Hplot & series & Hseries & Hkeys).
  exists this', options', boost, plotOptions, series.
  split; [exact Hrun|]. split; [exact Hb|]. split; [exact Hp|].
  split; [apply Hboost; discriminate|].
  split; [apply Hplot; discriminate|].
  split; [exact Hseries|]. apply Hkeys. discriminate.
Defined.

(** ** Further properties of axis placement *)

Section PositionFrame.
Variable numberToString : float → string.

(** X5: [setParallelPosition] writes the role keys (or [angle]) and nothing
    else: every other option keeps its value, the axis keeps every property
    but the three roles after the first, and its own primary offset ([left],
    or [top] when inverted) is never written; in polar mode the axis is not
    touched at all. *)
Theorem setParallelPosition_frame (chart : Chart.t) (this : Axis.t)
    (inverted : bool) (options : obj) (this' : Axis.t) (options' : obj) :
  let roles := rolesFor inverted in
  setParallelPosition numberToString chart this roles options
  = Ok (this', options') →
  this' = Axis.set_geometry (Axis.geometry this') this ∧
  Axis.own (key_at roles 0) (Axis.geometry this')
  = Axis.own (key_at roles 0) (Axis.geometry this) ∧
  (∀ k, k ∉ roles →
        Axis.own k (Axis.geometry this') = Axis.own k (Axis.geometry this)) ∧
  (Chart.polar chart = true →
   this' = this ∧
   ∀ k, k ≠ "angle" → prop k options' = prop k options) ∧
  (Chart.polar chart = false →
   ∀ k, k ∉ roles → prop k options' = prop k options).
Proof.
  intros roles. unfold setParallelPosition.
  destruct (Chart.parallelInfo chart) as [counter|]; [|done].
  cbn [mbind result_bind]. destruct (Chart.polar chart).
  - intros [= <- <-]. split; [by destruct this|]. split; [done|].
    split; [done|]. split; [|done]. split; [done|].
    intros k Hk. unfold prop, setProp. by rewrite binding_assign_ne.
  - intros [= <- <-]. cbn [Axis.geometry Axis.set_geometry].
    split; [done|].
    assert (Hframe : ∀ k, k ≠ key_at roles 1 → k ≠ key_at roles 2 →
              k ≠ key_at roles 3 →
              Axis.own k
                (Axis.setOwn (key_at roles 3) Null
                   (Axis.setOwn (key_at roles 2) Null
                      (Axis.setOwn (key_at roles 1) (Num 0)
                         (Axis.geometry this))))
              = Axis.own k (Axis.geometry this)).
    { intros k H1 H2 H3. unfold Axis.own, Axis.setOwn.
      by rewrite !binding_assign_ne. }
    assert (Hroles : ∀ k, k ∉ roles →
              k ≠ key_at roles 0 ∧ k ≠ key_at roles 1 ∧
              k ≠ key_at roles 2 ∧ k ≠ key_at roles 3).
    { intros k Hk. subst roles.
      destruct inverted; unfold rolesFor, axisPosition in Hk |- *;
        cbn [rev app key_at nth] in Hk |- *;
        rewrite !not_elem_of_cons in Hk; tauto. }
    split; [|split; [|split; [done|]]].
    + apply Hframe; subst roles; destruct inverted;
        unfold rolesFor, axisPosition; cbn [rev app key_at nth];
        discriminate.
    + intros k Hk. destruct (Hroles k Hk) as (_ & ? & ? & ?).
      by apply Hframe.
    + intros _ k Hk. destruct (Hroles k Hk) as (? & ? & ? & ?).
      unfold prop, setProp. by rewrite !binding_assign_ne.
Qed.

(** X6: placing an axis throws in exactly one situation: the chart is in
    parallel mode, the axis is a Y-axis and the chart has no
    [parallelInfo]. *)
Theorem afterSetOptions_fails_iff (chart : Chart.t) (axis : Axis.t)
    (userOptions : option obj) :
  afterSetOptions numberToString chart axis userOptions = TypeError ↔
  truthy (Chart.hasParallelCoordinates chart) = true ∧
  Axis.isXAxis axis = false ∧
  Chart.parallelInfo chart = None.
Proof.
  unfold afterSetOptions, setParallelPosition.
  destruct (truthy (Chart.hasParallelCoordinates chart));
    [|split; [done|by intros [? _]]].
  destruct (Axis.isXAxis axis); [split; [done|by intros (_ & ? & _)]|].
  destruct (Chart.parallelInfo chart) as [counter|].
  - cbn [mbind result_bind]. destruct (Chart.polar chart);
      cbn [mbind result_bind]; (split; [done|by intros (_ & _ & ?)]).
  - done.
Qed.

(** X7: an axis takes the number of Y-axes as its parallel position the first
    time its options are set and keeps that position afterwards, on whatever
    chart state and with whatever options the handler runs again. *)
Theorem afterSetOptions_keeps_position (chart chart' : Chart.t)
    (axis axis1 axis2 : Axis.t) (userOptions userOptions' : option obj) :
  truthy (Chart.hasParallelCoordinates chart) = true →
  Axis.isXAxis axis = false →
  afterSetOptions numberToString chart axis userOptions = Ok axis1 →
  afterSetOptions numberToString chart' axis1 userOptions' = Ok axis2 →
  Axis.parallelPosition axis1
  = Some (pick (Axis.parallelPosition axis) (length (Chart.yAxis chart))) ∧
  Axis.parallelPosition axis2 = Axis.parallelPosition axis1.
Proof.
  intros Ht Hx H1 H2.
  assert (Hpos : Axis.parallelPosition axis1
                 = Some (pick (Axis.parallelPosition axis)
                              (length (Chart.yAxis chart))) ∧
                 Axis.isXAxis axis1 = false).
  { revert H1. unfold afterSetOptions, setParallelPosition. rewrite Ht, Hx.
    destruct (Chart.parallelInfo chart); [|done].
    cbn [mbind result_bind]. destruct (Chart.polar chart);
      cbn [mbind result_bind]; intros [= <-]; done. }
  destruct Hpos as [Hpos Hx1]. split; [done|].
  revert H2. unfold afterSetOptions, setParallelPosition.
  destruct (truthy (Chart.hasParallelCoordinates chart'));
    [|by intros [= <-]].
  rewrite Hx1. destruct (Chart.parallelInfo chart'); [|done].
  cbn [mbind result_bind Axis.parallelPosition Axis.set_options
       Axis.set_parallelPosition].
  rewrite Hpos. destruct (Chart.polar chart');
    cbn [mbind result_bind]; intros [= <-]; done.
Qed.

(** X8: after a construction in parallel mode, setting the options of an axis
    never throws. *)
Theorem init_then_afterSetOptions (this chart : Chart.t)
    (options options' : Options.t) (axis : Axis.t)
    (userOptions : option obj) :
  init this options = Ok (chart, options') →
  truthy (Chart.hasParallelCoordinates chart) = true →
  ∃ axis', afterSetOptions numberToString chart axis userOptions = Ok axis'.
Proof.
  intros Hinit Ht.
  assert (Hinfo : is_Some (Chart.parallelInfo chart)).
  { revert Hinit. unfold init.
    cbn [Chart.hasParallelCoordinates Chart.set_hasParallelCoordinates].
    fold (requested options).
    destruct (truthy (requested options)) eqn:Hr.
    - destruct (Options.series options) as [ss|] eqn:Hs.
      + rewrite (setParallelInfo_Some _ _ ss Hs).
        cbn [mbind result_bind Chart.parallelInfo Chart.set_parallelInfo].
        intros [= <- _]. by eexists.
      + unfold setParallelInfo. by rewrite Hs.
    - intros [= <- _]. cbn in Ht. congruence. }
  destruct Hinfo as [counter Hinfo].
  unfold afterSetOptions, setParallelPosition. rewrite Ht, Hinfo.
  destruct (Axis.isXAxis axis); [by eexists|].
  cbn [mbind result_bind]. destruct (Chart.polar chart);
    cbn [mbind result_bind]; by eexists.
Qed.

Section UpdateGap.
Variable axisUpdate : Chart.t → Axis.t → result Axis.t.

(** X9: switching parallel coordinates on through [chart.update] sets the flag
    and nothing else: a chart constructed without the mode still has no
    [parallelInfo], so the next time a Y-axis has its options set the
    positioner throws. *)
Theorem update_enabling_breaks_positioning (this : Chart.t)
    (optionsChart : ChartUpdate.t) :
  Chart.parallelInfo this = None →
  truthy (ChartUpdate.parallelCoordinates optionsChart) = true →
  ChartUpdate.parallelAxes optionsChart = None →
  update axisUpdate this (Some optionsChart)
  = Ok (Chart.set_hasParallelCoordinates
          (ChartUpdate.parallelCoordinates optionsChart) this) ∧
  ∀ chart' axis userOptions,
    update axisUpdate this (Some optionsChart) = Ok chart' →
    Axis.isXAxis axis = false →
    afterSetOptions numberToString chart' axis userOptions = TypeError.
Proof.
  intros Hinfo Ht Hpa.
  assert (Hd : defined (ChartUpdate.parallelCoordinates optionsChart) = true).
  { by destruct (ChartUpdate.parallelCoordinates optionsChart). }
  assert (Hrun : update axisUpdate this (Some optionsChart)
                 = Ok (Chart.set_hasParallelCoordinates
                         (ChartUpdate.parallelCoordinates optionsChart) this)).
  { unfold update. by rewrite Hd, Hpa. }
  split; [exact Hrun|]. intros chart' axis userOptions Hup Hx.
  rewrite Hrun in Hup. injection Hup as <-.
  unfold afterSetOptions, setParallelPosition.
  cbn [Chart.hasParallelCoordinates Chart.set_hasParallelCoordinates
       Chart.parallelInfo].
  by rewrite Ht, Hx, Hinfo.
Qed.
End UpdateGap.

End PositionFrame.

Lemma setParallelPosition_frame_witness :
  ∃ this' options',
    setParallelPosition (fun _ => "75") enabledChart freshAxis
      (rolesFor false) [("min", VNum 0)]
    = Ok (this', options') ∧
    Axis.own "left" (Axis.geometry this') = Num 5 ∧
    prop "min" options' = VNum 0.
Proof.
  exists (Axis.set_geometry
            [("left", Num 5); ("width", Num 0); ("height", Null);
             ("top", Null)] freshAxis),
    [("min", VNum 0); ("left", VStr "75%"); ("width", VNum 0);
     ("height", VNull); ("top", VNull)].
  assert (Hrun : setParallelPosition (fun _ => "75") enabledChart freshAxis
                   (rolesFor false) [("min", VNum 0)]
                 = Ok (Axis.set_geometry
                         [("left", Num 5); ("width", Num 0);
                          ("height", Null); ("top", Null)] freshAxis,
                       [("min", VNum 0); ("left", VStr "75%");
                        ("width", VNum 0); ("height", VNull);
                        ("top", VNull)])) by reflexivity.
  split; [exact Hrun|].
  destruct (setParallelPosition_frame (fun _ => "75") enabledChart freshAxis
              false [("min", VNum 0)] _ _ Hrun)
    as (_ & Hleft & _ & _ & Hopts).
  split; [exact Hleft|]. apply (Hopts eq_refl).
  unfold rolesFor, axisPosition. rewrite !not_elem_of_cons.
  repeat split; try discriminate. apply not_elem_of_nil.
Defined.

Lemma afterSetOptions_keeps_position_witness :
  ∃ axis1 axis2,
    afterSetOptions (fun _ => "75") twoAxes freshAxis None = Ok axis1 ∧
    afterSetOptions (fun _ => "75") threeAxes axis1 None = Ok axis2 ∧
    Axis.parallelPosition axis1 = Some 0%nat ∧
    Axis.parallelPosition axis2 = Some 0%nat.
Proof.
  destruct (afterSetOptions (fun _ => "75") twoAxes freshAxis None)
    as [axis1|] eqn:H1; [|discriminate].
  destruct (afterSetOptions (fun _ => "75") threeAxes axis1 None)
    as [axis2|] eqn:H2.
  - destruct (afterSetOptions_keeps_position (fun _ => "75") twoAxes
                threeAxes freshAxis axis1 axis2 None None eq_refl eq_refl
                H1 H2) as [Hp1 Hp2].
    exists axis1, axis2. split; [reflexivity|]. split; [exact H2|].
    split; [exact Hp1|]. rewrite Hp2. exact Hp1.
  - exfalso. injection H1 as <-. vm_compute in H2. discriminate.
Defined.

Lemma init_then_afterSetOptions_witness :
  ∃ chart options' axis',
    init blankChart threeSeries = Ok (chart, options') ∧
    afterSetOptions (fun _ => "75") chart freshAxis None = Ok axis'.
Proof.
  destruct (init blankChart threeSeries) as [[chart options']|] eqn:Hinit;
    [|discriminate].
  destruct (init_then_afterSetOptions (fun _ => "75") blankChart chart
              threeSeries options' freshAxis None Hinit) as [axis' Hrun].
  - injection Hinit as <- _. reflexivity.
  - exists chart, options', axis'. split; [reflexivity|exact Hrun].
Defined.

Lemma update_enabling_breaks_positioning_witness :
  update (fun _ a => Ok a) plainChart
    (Some (ChartUpdate.make (VBool true) None))
  = Ok (Chart.set_hasParallelCoordinates (VBool true) plainChart) ∧
  afterSetOptions (fun _ => "75")
    (Chart.set_hasParallelCoordinates (VBool true) plainChart) freshAxis None
  = TypeError.
Proof.
  destruct (update_enabling_breaks_positioning (fun _ => "75")
              (fun _ a => Ok a) plainChart
              (ChartUpdate.make (VBool true) None) eq_refl eq_refl eq_refl)
    as [Hrun Hnext].
  split; [exact Hrun|]. exact (Hnext _ freshAxis None Hrun eq_refl).
Defined.

(** ** Further properties of the extremes *)

Lemma each_ext_elem {A B : Type} (f g : B → A → result B) (l : list A) :
  (∀ b a, a ∈ l → f b a = g b a) →
  ∀ b, each (Some l) f b = each (Some l) g b.
Proof.
  intros H b. cbn [each].
  assert (∀ r : result B,
            foldl (fun acc a => acc ≫= fun b => f b a) r l
            = foldl (fun acc a => acc ≫= fun b => g b a) r l) as Hr; [|done].
  clear b. induction l as [|a l IH]; intros r; [done|]. cbn [foldl].
  rewrite IH.
  - f_equal. destruct r as [b|]; [|done]. cbn [mbind result_bind].
    apply H. by left.
  - intros b a' Ha'. apply H. by right.
Qed.

(** X10: the handler reads, of each bound series, the value at the axis's own
    position and nothing else: two stores whose series agree there give the
    same outcome. *)
Theorem getSeriesExtremes_only_position
    (heap heap' : nat → option Series.t) (chart : option Chart.t)
    (this : Axis.t) (e : Event.t) (i : nat) (refs : list nat) :
  Axis.parallelPosition this = Some i →
  Axis.series this = Some refs →
  (∀ r, r ∈ refs →
        match heap r, heap' r with
        | Some s, Some s' => Series.yData s !! i = Series.yData s' !! i
        | None, None => True
        | _, _ => False
        end) →
  getSeriesExtremes heap chart this e = getSeriesExtremes heap' chart this e.
Proof.
  intros Hi Hs Hagree. unfold getSeriesExtremes.
  destruct (_ && _); [|done]. cbv zeta. rewrite Hs, Hi.
  rewrite (each_ext_elem _
             (fun currentPoints r =>
                series ← match heap' r with
                         | Some s => Ok s
                         | None => TypeError
                         end;
                let v := default Undefined
                           (i ← Some i; Series.yData series !! i) in
                if defined_numeric v then Ok (currentPoints ++ [v])
                else Ok currentPoints) refs); [done|].
  intros b r Hr. specialize (Hagree r Hr).
  destruct (heap r) as [s|], (heap' r) as [s'|]; try done.
  cbn [mbind result_bind option_bind]. cbv zeta. by rewrite Hagree.
Qed.

Lemma getSeriesExtremes_only_position_witness :
  getSeriesExtremes threeBound (Some enabledChart) secondAxis
    (Event.make false)
  = getSeriesExtremes
      (fun r => [seriesOf [Num 9; Num 5]; seriesOf [Undefined; Null];
                 seriesOf [Null; Num 7; Num 8]] !! r)
      (Some enabledChart) secondAxis (Event.make false).
Proof.
  apply (getSeriesExtremes_only_position threeBound _ (Some enabledChart)
           secondAxis (Event.make false) 1%nat [0; 1; 2]%nat eq_refl eq_refl).
  intros r Hr.
  repeat (apply elem_of_cons in Hr as [->|Hr]; [reflexivity|]).
  by apply elem_of_nil in Hr.
Defined.

Lemma collect_nothing (ss : list Series.t) :
  List.filter defined_numeric
    (map (fun s => default Undefined
                     (i ← @None nat; Series.yData s !! i)) ss) = [].
Proof. induction ss as [|s ss IH]; [done|]. exact IH. Qed.

(** X11: an axis that has no parallel position yet reads [yData[undefined]] of
    every series: no value is collected and both extremes are left
    [undefined], whatever they were and whatever the series hold. *)
Theorem getSeriesExtremes_unpositioned
    (heap : nat → option Series.t) (chart : Chart.t) (this : Axis.t)
    (e : Event.t) (refs : list nat) (ss : list Series.t) :
  truthy (Chart.hasParallelCoordinates chart) = true →
  Axis.isXAxis this = false →
  Axis.parallelPosition this = None →
  Axis.series this = Some refs →
  Forall2 (fun r s => heap r = Some s) refs ss →
  getSeriesExtremes heap (Some chart) this e
  = Ok (Axis.set_extremes Undefined Undefined this, Event.make true).
Proof.
  intros Ht Hx Hi Hs Hr. unfold getSeriesExtremes. rewrite Ht, Hx, Hs.
  cbn [andb negb each].
  pose proof (collect_values heap (Axis.parallelPosition this) refs ss [] Hr)
    as Hc.
  cbv zeta in Hc |- *. rewrite Hc, Hi, collect_nothing.
  reflexivity.
Qed.

Lemma getSeriesExtremes_unpositioned_witness :
  getSeriesExtremes threeBound (Some enabledChart)
    (Axis.set_extremes (Num 1) (Num 2)
       (Axis.set_parallelPosition None secondAxis)) (Event.make false)
  = Ok (Axis.set_parallelPosition None secondAxis, Event.make true).
Proof.
  apply (getSeriesExtremes_unpositioned threeBound enabledChart
           (Axis.set_extremes (Num 1) (Num 2)
              (Axis.set_parallelPosition None secondAxis))
           (Event.make false) [0; 1; 2]%nat
           [seriesOf [Num 1; Num 5]; seriesOf [Num 2; Null];
            seriesOf [Num 3; Num 7]] eq_refl eq_refl eq_refl eq_refl).
  repeat constructor.
Defined.

(** ** Further properties of the translation *)

Lemma Math_min_bounded (a b : float) :
  PrimFloat.ltb MAX_VALUE a = false →
  PrimFloat.ltb MAX_VALUE (Math_min a b) = false.
Proof.
  intros Ha. unfold Math_min.
  destruct (is_nan a || is_nan b) eqn:En; [reflexivity|].
  apply orb_false_elim in En as [Hna Hnb].
  destruct (PrimFloat.ltb a b) eqn:Eab; [done|].
  destruct (PrimFloat.ltb b a) eqn:Eba.
  - destruct (PrimFloat.ltb MAX_VALUE b) eqn:E; [|done].
    by rewrite <- Ha, (ltb_trans MAX_VALUE b a).
  - destruct (is_zero a && get_sign a); [done|].
    destruct (PrimFloat.ltb MAX_VALUE b) eqn:E; [|done].
    destruct (ltb_cotrans MAX_VALUE a b Hna E); congruence.
Qed.

Section TranslateMore.
Variable translate : Axis.t → numeric → numeric.
Variable isInsidePlot : Chart.t → numeric → numeric → bool → bool.

Lemma translatePoints_bounded (chart : Chart.t) (points : list Point.t) :
  ∀ (i : nat) (closest : float) (lastPlotX : numeric)
    (points' : list Point.t) (m : float),
  PrimFloat.ltb MAX_VALUE closest = false →
  translatePoints translate isInsidePlot chart i points closest lastPlotX
  = Ok (points', m) →
  PrimFloat.ltb MAX_VALUE m = false.
Proof.
  induction points as [|point rest IH];
    intros i closest lastPlotX points' m Hc Hrun.
  - simpl in Hrun. by injection Hrun as _ <-.
  - cbn [translatePoints] in Hrun.
    destruct (defined_numeric (Point.y point)).
    + destruct (Chart.axisAt chart (Chart.yAxis chart) i) as [axis|];
        [|done].
      cbn [mbind result_bind] in Hrun. cbv zeta in Hrun.
      match type of Hrun with
      | context [translatePoints _ _ _ _ _ ?c ?l] =>
          destruct (translatePoints translate isInsidePlot chart (S i) rest
                      c l) as [[rest' m']|] eqn:E; [|done];
            apply IH in E
      end.
      * cbn [mbind result_bind] in Hrun. by injection Hrun as _ <-.
      * destruct lastPlotX; [done| |]; by apply Math_min_bounded.
    + cbv zeta in Hrun.
      destruct (translatePoints translate isInsidePlot chart (S i) rest
                  closest lastPlotX) as [[rest' m']|] eqn:E; [|done].
      apply IH in E; [|done].
      cbn [mbind result_bind] in Hrun. by injection Hrun as _ <-.
Qed.

(** X12: whatever the points and the axes are, a translation that completes in
    parallel mode leaves [closestPointRangePx] a number that
    [Number.MAX_VALUE] does not lie below: it is never [Infinity]. *)
Theorem afterTranslate_closest_bounded (chart : Chart.t)
    (this this' : Series.t) :
  truthy (Chart.hasParallelCoordinates chart) = true →
  afterTranslate translate isInsidePlot chart this = Ok this' →
  ∃ m, Series.closestPointRangePx this' = Num m ∧
       PrimFloat.ltb MAX_VALUE m = false.
Proof.
  intros Ht Hrun. unfold afterTranslate in Hrun. rewrite Ht in Hrun.
  cbv zeta in Hrun.
  destruct (translatePoints _ _ _ _ _ _ _) as [[points' m]|] eqn:E; [|done].
  cbn [mbind result_bind] in Hrun. injection Hrun as <-.
  exists m. split; [done|].
  by apply (translatePoints_bounded chart _ 0%nat MAX_VALUE Undefined points'
              m eq_refl E).
Qed.

Lemma translatePoints_fails (chart : Chart.t) (points : list Point.t) :
  ∀ (i : nat) (closest : float) (lastPlotX : numeric),
  translatePoints translate isInsidePlot chart i points closest lastPlotX
  = TypeError ↔
  ∃ j p, points !! j = Some p ∧ defined_numeric (Point.y p) = true ∧
         Chart.axisAt chart (Chart.yAxis chart) (i + j) = None.
Proof.
  induction points as [|point rest IH]; intros i closest lastPlotX.
  - simpl. split; [done|]. by intros (j & p & Hj & _).
  - cbn [translatePoints].
    assert (Hshift : (∃ j p, rest !! j = Some p ∧
                        defined_numeric (Point.y p) = true ∧
                        Chart.axisAt chart (Chart.yAxis chart) (S i + j)
                        = None) →
                     ∃ j p, (point :: rest) !! j = Some p ∧
                        defined_numeric (Point.y p) = true ∧
                        Chart.axisAt chart (Chart.yAxis chart) (i + j)
                        = None).
    { intros (j & p & Hj & Hd & Ha). exists (S j), p.
      replace (i + S j)%nat with (S i + j)%nat by lia. done. }
    destruct (defined_numeric (Point.y point)) eqn:Hd.
    + destruct (Chart.axisAt chart (Chart.yAxis chart) i) as [axis|] eqn:Ha.
      * cbn [mbind result_bind]. cbv zeta.
        match goal with
        | |- context [translatePoints _ _ _ _ _ ?c ?l] =>
            specialize (IH (S i) c l);
              destruct (translatePoints translate isInsidePlot chart (S i)
                          rest c l) as [[rest' m']|]
        end; cbn [mbind result_bind].
        -- split; [done|]. intros ([|j] & p & Hj & Hdp & Hap).
           ++ rewrite Nat.add_0_r in Hap. congruence.
           ++ assert (@Ok (list Point.t * float) (rest', m') = TypeError)
                as H; [|done].
              apply IH. exists j, p.
              replace (S i + j)%nat with (i + S j)%nat by lia. done.
        -- split; [|done]. intros _. apply Hshift. by apply IH.
      * cbn [mbind result_bind]. split; [|done]. intros _.
        exists 0%nat, point. rewrite Nat.add_0_r. done.
    + cbv zeta. specialize (IH (S i) closest lastPlotX).
      destruct (translatePoints translate isInsidePlot chart (S i) rest
                  closest lastPlotX) as [[rest' m']|];
        cbn [mbind result_bind].
      * split; [done|]. intros ([|j] & p & Hj & Hdp & Hap).
        -- simpl in Hj. injection Hj as <-. congruence.
        -- assert (@Ok (list Point.t * float) (rest', m') = TypeError)
             as H; [|done].
           apply IH. exists j, p.
           replace (S i + j)%nat with (i + S j)%nat by lia. done.
      * split; [|done]. intros _. apply Hshift. by apply IH.
Qed.

(** X13: in parallel mode the translation throws exactly when some point with a
    defined value sits at a data index for which [chart.yAxis] has no axis:
    [chart.yAxis[i]] is then [undefined] and its geometry cannot be read.
    Points without a value never make it fail. *)
Theorem afterTranslate_fails_iff (chart : Chart.t) (this : Series.t) :
  truthy (Chart.hasParallelCoordinates chart) = true →
  (afterTranslate translate isInsidePlot chart this = TypeError ↔
   ∃ points i p,
     Series.points this = Some points ∧ points !! i = Some p ∧
     defined_numeric (Point.y p) = true ∧
     Chart.axisAt chart (Chart.yAxis chart) i = None).
Proof.
  intros Ht. unfold afterTranslate. rewrite Ht. cbv zeta.
  pose proof (translatePoints_fails chart
                (default [] (Series.points this)) 0 MAX_VALUE Undefined)
    as Hf.
  destruct (translatePoints _ _ _ _ _ _ _) as [[points' m]|];
    cbn [mbind result_bind].
  - split; [done|]. intros (points & i & p & Hp & Hi & Hd & Ha).
    assert (@Ok (list Point.t * float) (points', m) = TypeError) as H;
      [|done].
    apply Hf. rewrite Hp. exists i, p. done.
  - split; [|done]. intros _.
    destruct (proj1 Hf eq_refl) as (j & p & Hj & Hd & Ha).
    destruct (Series.points this) as [points|]; [|by destruct j].
    exists points, j, p. done.
Qed.

End TranslateMore.

Lemma afterTranslate_closest_bounded_witness :
  ∃ this' m,
    afterTranslate (fun _ y => y) (fun _ _ _ _ => true) threeAxes
      gappedSeries = Ok this' ∧
    Series.closestPointRangePx this' = Num m ∧
    PrimFloat.ltb MAX_VALUE m = false.
Proof.
  destruct (afterTranslate (fun _ y => y) (fun _ _ _ _ => true) threeAxes
              gappedSeries) as [this'|] eqn:Hrun; [|discriminate Hrun].
  destruct (afterTranslate_closest_bounded (fun _ y => y)
              (fun _ _ _ _ => true) threeAxes gappedSeries this' eq_refl
              Hrun) as (m & Hm & Hb).
  exists this', m. split; [reflexivity|]. split; [exact Hm|exact Hb].
Defined.

(** The fourth value of a series has no axis on a chart with three. *)
Lemma afterTranslate_fails_iff_witness :
  afterTranslate (fun _ y => y) (fun _ _ _ _ => true) threeAxes longSeries
  = TypeError.
Proof.
  apply (afterTranslate_fails_iff (fun _ y => y) (fun _ _ _ _ => true)
           threeAxes longSeries eq_refl).
  exists [pointAt (Num 1); pointAt (Num 2); pointAt (Num 3); pointAt (Num 4)],
    3%nat, (pointAt (Num 4)).
  repeat split.
Defined.

(** ** Further properties of binding and destruction *)

(** Collecting one result per element fails exactly when some element
    does. *)
Lemma collect_fails {A B : Type} (g : A → result B) (l : list A) :
  foldr (fun a r => g a ≫= fun b => r ≫= fun bs => Ok (b :: bs)) (Ok []) l
  = TypeError ↔
  ∃ i a, l !! i = Some a ∧ g a = TypeError.
Proof.
  induction l as [|a l IH]; cbn [foldr].
  - split; [done|]. by intros (i & a & Hi & _).
  - destruct (g a) as [b|] eqn:Ha; cbn [mbind result_bind].
    + destruct (foldr _ _ l) as [bs|] eqn:E; cbn [mbind result_bind].
      * split; [done|]. intros ([|i] & a' & Hi & Hg); simpl in Hi.
        -- injection Hi as <-. congruence.
        -- assert (@Ok (list B) bs = TypeError) as H by (apply IH; eauto).
           done.
      * split; [|done]. intros _.
        destruct (proj1 IH eq_refl) as (i & a' & Hi & Hg).
        exists (S i), a'. done.
    + split; [|done]. intros _. exists 0%nat, a. done.
Qed.

Section BindingMore.
Variable insert : nat → list nat → list nat.
Variable erase : list nat → nat → list nat.

Lemma bindAxes_run
    (proceed : Chart.t → nat → Series.t → result (Chart.t * Series.t))
    (chart : Chart.t) (ref : nat) (this : Series.t)
    (l : list (option Axis.t)) :
  truthy (Chart.hasParallelCoordinates chart) = true →
  Chart.axes chart = Some l →
  bindAxes insert proceed chart ref this
  = foldr (fun a r => bindOne insert ref a ≫= fun b =>
                      r ≫= fun bs => Ok (b :: bs)) (Ok []) l
      ≫= fun l' =>
           Ok (Chart.set_axes (Some l') chart,
               Series.set_axes (Chart.xAxis chart !! 0%nat)
                 (Chart.yAxis chart !! 0%nat) this).
Proof.
  intros Ht Hl. unfold bindAxes. rewrite Ht, Hl. cbv zeta.
  rewrite (each_ext _
             (fun acc a => bindOne insert ref a ≫= fun b =>
                           Ok (acc ++ [b]))).
  - rewrite each_push. by destruct (foldr _ _ l).
  - intros acc [axis|]; [|done]. unfold bindOne.
    by destruct (Axis.series axis).
Qed.

Lemma destroy_run (chart : Chart.t) (ref : nat) (l : list (option Axis.t)) :
  truthy (Chart.hasParallelCoordinates chart) = true →
  Chart.axes chart = Some l →
  destroy erase chart ref
  = Ok (Chart.set_axes (Some (map (released erase ref) l)) chart).
Proof.
  intros Ht Hl. unfold destroy. rewrite Ht. cbv zeta.
  rewrite (each_ext _
             (fun acc a => Ok (released erase ref a) ≫= fun b =>
                           Ok (acc ++ [b]))).
  2:{ intros acc [a|]; [|done]. cbn [mbind result_bind released].
      by destruct (Axis.series a). }
  rewrite each_push, release_all, Hl. done.
Qed.

(** X14: in parallel mode binding throws exactly when [chart.axes] is absent,
    holds an entry that is not an axis, or holds an axis without a series
    collection; unlike the destroy handler it has no guard. *)
Theorem bindAxes_fails_iff
    (proceed : Chart.t → nat → Series.t → result (Chart.t * Series.t))
    (chart : Chart.t) (ref : nat) (this : Series.t) :
  truthy (Chart.hasParallelCoordinates chart) = true →
  (bindAxes insert proceed chart ref this = TypeError ↔
   Chart.axes chart = None ∨
   ∃ l i a,
     Chart.axes chart = Some l ∧ l !! i = Some a ∧
     (a = None ∨ ∃ axis, a = Some axis ∧ Axis.series axis = None)).
Proof.
  intros Ht. destruct (Chart.axes chart) as [l|] eqn:Hl.
  - rewrite (bindAxes_run proceed chart ref this l Ht Hl).
    destruct (foldr _ _ l) as [l'|] eqn:E; cbn [mbind result_bind].
    + split; [done|]. intros [|(l0 & i & a & [= <-] & Hi & Hbad)]; [done|].
      assert (bindOne insert ref a = TypeError) as Hone.
      { destruct Hbad as [->|(axis & -> & Hs)]; [done|].
        unfold bindOne. by rewrite Hs. }
      assert (@Ok (list (option Axis.t)) l' = TypeError) as H; [|done].
      rewrite <- E. apply collect_fails. eauto.
    + split; [|done]. intros _. right.
      apply collect_fails in E as (i & a & Hi & Hone).
      exists l, i, a. split; [done|]. split; [done|].
      destruct a as [axis|]; [|by left]. right. exists axis. split; [done|].
      unfold bindOne in Hone. by destruct (Axis.series axis).
  - unfold bindAxes. rewrite Ht, Hl. cbn [each mbind result_bind].
    split; [by left|done].
Qed.

(** X15: binding a series and destroying it again leaves every axis with the
    series collection it had, marked dirty and due for a redraw.  [insert]
    and [erase] are the host's: what is asked of them is that erasing what
    was just inserted into a collection without the series gives the
    collection back. *)
Theorem bind_then_destroy
    (proceed : Chart.t → nat → Series.t → result (Chart.t * Series.t))
    (chart : Chart.t) (ref : nat) (this : Series.t)
    (l : list (option Axis.t)) :
  (∀ c, ref ∉ c → erase (insert ref c) ref = c) →
  truthy (Chart.hasParallelCoordinates chart) = true →
  Chart.axes chart = Some l →
  Forall (fun a => ∃ axis c,
            a = Some axis ∧ Axis.series axis = Some c ∧ ref ∉ c) l →
  ∃ chart1 series1 chart2 l2,
    bindAxes insert proceed chart ref this = Ok (chart1, series1) ∧
    destroy erase chart1 ref = Ok chart2 ∧
    Chart.axes chart2 = Some l2 ∧
    length l2 = length l ∧
    ∀ i axis, l !! i = Some (Some axis) →
      l2 !! i
      = Some (Some (Axis.set_isDirty true (Axis.set_forceRedraw true axis))).
Proof.
  intros Hback Ht Hl Hall.
  destruct (bindAll insert ref l) as (l' & Hrun & Hlen & Hat).
  { eapply Forall_impl; [exact Hall|]. intros a (axis & c & -> & Hc & _).
    eauto. }
  rewrite (bindAxes_run proceed chart ref this l Ht Hl), Hrun.
  cbn [mbind result_bind].
  eexists _, _, _, _. split; [reflexivity|].
  rewrite (destroy_run _ ref l'); [|by destruct chart|by destruct chart].
  split; [reflexivity|]. split; [by destruct chart|].
  split; [by rewrite length_map|].
  intros i axis Hi. rewrite list_lookup_fmap.
  destruct (Hat i axis Hi) as (c & Hc & ->). cbn [fmap option_fmap option_map].
  rewrite Forall_forall in Hall.
  destruct (Hall (Some axis)) as (axis' & c' & [= <-] & Hc' & Hfree).
  { apply list_elem_of_lookup. eauto. }
  rewrite Hc in Hc'. injection Hc' as <-.
  unfold released, bound. cbn [Axis.series Axis.set_isDirty Axis.set_series].
  rewrite (Hback c Hfree). destruct axis; simpl in *; by subst.
Qed.

End BindingMore.

Lemma bindAxes_fails_iff_witness :
  bindAxes (fun s c => c ++ [s]) (fun c _ s => Ok (c, s)) enabledChart 7%nat
    (seriesOf [])
  = TypeError.
Proof.
  apply (bindAxes_fails_iff (fun s c => c ++ [s]) (fun c _ s => Ok (c, s))
           enabledChart 7%nat (seriesOf []) eq_refl).
  left. reflexivity.
Defined.

Lemma bind_then_destroy_witness :
  ∃ chart1 series1 chart2 l2,
    bindAxes (fun s c => c ++ [s]) (fun c _ s => Ok (c, s)) twoAxes 7%nat
      (seriesOf [])
    = Ok (chart1, series1) ∧
    destroy (fun c _ => removelast c) chart1 7%nat = Ok chart2 ∧
    Chart.axes chart2 = Some l2 ∧
    length l2 = 2%nat.
Proof.
  destruct (bind_then_destroy (fun s c => c ++ [s]) (fun c _ => removelast c)
              (fun c _ s => Ok (c, s)) twoAxes 7%nat (seriesOf [])
              [Some (axisAtLeft 0); Some (axisAtLeft 10)])
    as (chart1 & series1 & chart2 & l2 & Hb & Hd & Ha & Hlen & _).
  - intros c _. apply removelast_last.
  - reflexivity.
  - reflexivity.
  - repeat constructor; eexists _, _; (split; [reflexivity|]);
      (split; [reflexivity|apply not_elem_of_nil]).
  - exists chart1, series1, chart2, l2. done.
Defined.

(** ** Further properties of label formatting *)

Section LabelMore.
Variable numberToString : float → string.
Variable format : value → Point.t → value.
Variable dateFormat : value → numeric → value.

(** X17: a [tooltipValueFormat] that is set but falsy (the empty string, say)
    still wins over [labels.format] in the [pick], and being falsy it is then
    not applied either: the point falls through to the category name or the
    raw value, and [labels.format] is never used. *)
Theorem addFormattedValue_falsy_tooltipValueFormat
    (proceed : Point.t → Config.t) (chart : Chart.t) (this : Point.t)
    (yAxis : Axis.t) (labelsFormat : value) :
  truthy (Chart.hasParallelCoordinates chart) = true →
  defined (Config.formattedValue (proceed this)) = false →
  Chart.axisAt chart (Chart.yAxis chart) (Point.x this) = Some yAxis →
  get (prop "labels" (Axis.options yAxis)) "format" = Ok labelsFormat →
  defined (prop "tooltipValueFormat" (Axis.options yAxis)) = true →
  truthy (prop "tooltipValueFormat" (Axis.options yAxis)) = false →
  Axis.isDatetimeAxis yAxis = false →
  let categories := prop "categories" (Axis.options yAxis) in
  let shown :=
    if truthy categories then elemAt numberToString categories (Point.y this)
    else of_numeric (Point.y this) in
  addFormattedValue numberToString format dateFormat proceed (Some chart)
    this
  = Ok (Config.make shown, Point.set_formattedValue shown this).
Proof.
  intros Ht Hd Ha Hl Hdef Hfalsy Hdt categories shown.
  unfold addFormattedValue. rewrite Ht, Hd, Ha.
  cbn [andb negb mbind result_bind]. rewrite Hl. cbn [mbind result_bind].
  unfold pick_value. rewrite Hdef, Hfalsy, Hdt. subst shown categories.
  by destruct (truthy (prop "categories" (Axis.options yAxis))).
Qed.

(** X18: on a categorical axis without a format, a point whose value is not an
    index into the category list (past its end, fractional, negative, or no
    number at all) is given [undefined] as its formatted value; the raw
    value is not used in its place. *)
Theorem addFormattedValue_no_such_category
    (proceed : Point.t → Config.t) (chart : Chart.t) (this : Point.t)
    (yAxis : Axis.t) (labelsFormat : value) (names : list value) :
  truthy (Chart.hasParallelCoordinates chart) = true →
  defined (Config.formattedValue (proceed this)) = false →
  Chart.axisAt chart (Chart.yAxis chart) (Point.x this) = Some yAxis →
  get (prop "labels" (Axis.options yAxis)) "format" = Ok labelsFormat →
  truthy (pick_value (prop "tooltipValueFormat" (Axis.options yAxis))
            labelsFormat) = false →
  Axis.isDatetimeAxis yAxis = false →
  prop "categories" (Axis.options yAxis) = VArr names →
  (∀ x i, Point.y this = Num x → toIndex x = Some i →
          (length names <= i)%nat) →
  addFormattedValue numberToString format dateFormat proceed (Some chart)
    this
  = Ok (Config.make VUndefined, Point.set_formattedValue VUndefined this).
Proof.
  intros Ht Hd Ha Hl Hf Hdt Hc Hout.
  unfold addFormattedValue. rewrite Ht, Hd, Ha.
  cbn [andb negb mbind result_bind]. rewrite Hl. cbn [mbind result_bind].
  rewrite Hf, Hdt, Hc. cbn [truthy elemAt mbind result_bind].
  destruct (Point.y this) as [| |x]; [done|done|].
  destruct (toIndex x) as [i|] eqn:Hi; [|done].
  cbn [mbind option_bind]. rewrite lookup_ge_None_2; [done|].
  by apply (Hout x i).
Qed.

(** X19: whenever the wrapper completes in parallel mode for a config that had
    no formatted value, the value it returns in the config is the one it
    stored on the point, and the point is otherwise as it was but for
    [value], which is only set when a format string was applied. *)
Theorem addFormattedValue_point_matches_config
    (proceed : Point.t → Config.t) (chart : Chart.t) (this this' : Point.t)
    (config : Config.t) :
  truthy (Chart.hasParallelCoordinates chart) = true →
  defined (Config.formattedValue (proceed this)) = false →
  addFormattedValue numberToString format dateFormat proceed (Some chart)
    this = Ok (config, this') →
  Point.formattedValue this' = Config.formattedValue config ∧
  (this' = Point.set_formattedValue (Config.formattedValue config) this ∨
   this' = Point.set_formattedValue (Config.formattedValue config)
             (Point.set_value (of_numeric (Point.y this)) this)).
Proof.
  intros Ht Hd Hrun. unfold addFormattedValue in Hrun.
  rewrite Ht, Hd in Hrun. cbn [andb negb] in Hrun.
  destruct (Chart.axisAt chart (Chart.yAxis chart) (Point.x this))
    as [yAxis|]; [|done].
  cbn [mbind result_bind] in Hrun.
  destruct (get (prop "labels" (Axis.options yAxis)) "format")
    as [labelsFormat|]; [|done].
  cbn [mbind result_bind] in Hrun. cbv zeta in Hrun.
  destruct (truthy (pick_value _ _)).
  { cbn [mbind result_bind] in Hrun. injection Hrun as <- <-.
    split; [done|]. by right. }
  destruct (Axis.isDatetimeAxis yAxis).
  { destruct (Axis.unitName yAxis) as [u|]; [|done].
    cbn [mbind result_bind] in Hrun.
    destruct (get (prop "dateTimeLabelFormats" (Axis.options yAxis)) u);
      [|done].
    cbn [mbind result_bind] in Hrun. injection Hrun as <- <-.
    split; [done|]. by left. }
  destruct (truthy (prop "categories" (Axis.options yAxis)));
    cbn [mbind result_bind] in Hrun; injection Hrun as <- <-;
    (split; [done|]; by left).
Qed.

End LabelMore.

Lemma addFormattedValue_resolution_witness :
  addFormattedValue (fun _ => "1") (fun _ _ => VStr "1 km")
    (fun _ _ => VStr "1. Jan") (fun _ => Config.make VUndefined)
    (Some (chartOf categoryAxis)) (pointAt (Num 1))
  = Ok (Config.make (VStr "high"),
        Point.set_formattedValue (VStr "high") (pointAt (Num 1))).
Proof.
  apply (addFormattedValue_resolution (fun _ => "1") (fun _ _ => VStr "1 km")
           (fun _ _ => VStr "1. Jan") (fun _ => Config.make VUndefined)
           (chartOf categoryAxis) (pointAt (Num 1)) categoryAxis VUndefined
           eq_refl eq_refl eq_refl eq_refl); reflexivity.
Defined.

Lemma addFormattedValue_falsy_tooltipValueFormat_witness :
  addFormattedValue (fun _ => "7") (fun _ _ => VStr "7 km")
    (fun _ _ => VStr "7. Jan") (fun _ => Config.make VUndefined)
    (Some (chartOf shadowedAxis)) (pointAt (Num 7))
  = Ok (Config.make (VNum 7),
        Point.set_formattedValue (VNum 7) (pointAt (Num 7))).
Proof.
  apply (addFormattedValue_falsy_tooltipValueFormat (fun _ => "7")
           (fun _ _ => VStr "7 km") (fun _ _ => VStr "7. Jan")
           (fun _ => Config.make VUndefined) (chartOf shadowedAxis)
           (pointAt (Num 7)) shadowedAxis (VStr "{value} km")
           eq_refl eq_refl eq_refl eq_refl eq_refl eq_refl eq_refl).
Defined.

Lemma addFormattedValue_no_such_category_witness :
  addFormattedValue (fun _ => "5") (fun _ _ => VStr "5 km")
    (fun _ _ => VStr "5. Jan") (fun _ => Config.make VUndefined)
    (Some (chartOf categoryAxis)) (pointAt (Num 5))
  = Ok (Config.make VUndefined,
        Point.set_formattedValue VUndefined (pointAt (Num 5))).
Proof.
  apply (addFormattedValue_no_such_category (fun _ => "5")
           (fun _ _ => VStr "5 km") (fun _ _ => VStr "5. Jan")
           (fun _ => Config.make VUndefined) (chartOf categoryAxis)
           (pointAt (Num 5)) categoryAxis VUndefined
           [VStr "low"; VStr "high"]
           eq_refl eq_refl eq_refl eq_refl eq_refl eq_refl eq_refl).
  intros x i [= <-] Hi. vm_compute in Hi. injection Hi as <-. simpl. lia.
Defined.

Lemma addFormattedValue_point_matches_config_witness :
  ∃ config this',
    addFormattedValue (fun _ => "7") (fun _ _ => VStr "7 km")
      (fun _ _ => VStr "7. Jan") (fun _ => Config.make VUndefined)
      (Some (chartOf (axisWith [("labels",
                                 VObj [("format", VStr "{value} km")])])))
      (pointAt (Num 7)) = Ok (config, this') ∧
    Point.formattedValue this' = Config.formattedValue config.
Proof.
  destruct (addFormattedValue (fun _ => "7") (fun _ _ => VStr "7 km")
              (fun _ _ => VStr "7. Jan") (fun _ => Config.make VUndefined)
              (Some (chartOf (axisWith [("labels",
                                         VObj [("format",
                                                VStr "{value} km")])])))
              (pointAt (Num 7))) as [[config this']|] eqn:Hrun;
    [|discriminate Hrun].
  destruct (addFormattedValue_point_matches_config (fun _ => "7")
              (fun _ _ => VStr "7 km") (fun _ _ => VStr "7. Jan")
              (fun _ => Config.make VUndefined)
              (chartOf (axisWith [("labels",
                                   VObj [("format", VStr "{value} km")])]))
              (pointAt (Num 7)) this' config eq_refl eq_refl Hrun)
    as [Hsame _].
  exists config, this'. split; [reflexivity|exact Hsame].
Defined.

(** ** The shared axis *)

Section SharedAxis.
Variable numberToString : float → string.

(** X20: on the shared X-axis the handler only rewrites the options, and the
    stock settings ([type: 'category'], [opposite: true]) win over whatever
    the axis options held before: a stock key the user options do not bind
    has its stock value afterwards.  The axis is not positioned. *)
Theorem afterSetOptions_xAxis_defaults (chart : Chart.t) (axis : Axis.t)
    (userOptions : option obj) :
  truthy (Chart.hasParallelCoordinates chart) = true →
  Axis.isXAxis axis = true →
  ∃ axis',
    afterSetOptions numberToString chart axis userOptions = Ok axis' ∧
    axis' = Axis.set_options (Axis.options axis') axis ∧
    ∀ k v, binding k defaultXAxisOptions = Some v →
           binding k (default [] userOptions) = None →
           prop k (Axis.options axis') = v.
Proof.
  intros Ht Hx. unfold afterSetOptions. rewrite Ht, Hx.
  eexists. split; [reflexivity|]. split; [by destruct axis|].
  intros k v Hk Hu. cbn [Axis.options Axis.set_options]. unfold merge3.
  set (base := doCopy [] (VObj (Axis.options axis))).
  assert (Hstock : prop k (doCopy base (VObj defaultXAxisOptions)) = v).
  { unfold defaultXAxisOptions in *. cbn [doCopy]. cbn [binding] in Hk.
    unfold prop, setProp.
    destruct (String.eqb k "opposite") eqn:E1.
    - apply String.eqb_eq in E1 as ->. injection Hk as <-.
      rewrite binding_assign_ne by discriminate.
      by rewrite binding_assign_eq.
    - destruct (String.eqb k "type") eqn:E2; [|done].
      apply String.eqb_eq in E2 as ->. injection Hk as <-.
      by rewrite binding_assign_eq. }
  destruct userOptions as [uo|]; [|exact Hstock].
  cbn [arg]. by rewrite prop_doCopy_frame.
Qed.

End SharedAxis.

Lemma afterSetOptions_xAxis_defaults_witness :
  ∃ axis',
    afterSetOptions (fun _ => "75") enabledChart
      (Axis.make true [("type", VStr "linear"); ("opposite", VBool false)]
         None [] (Some []) false false Undefined Undefined false None
         Undefined)
      (Some [("opposite", VBool false)]) = Ok axis' ∧
    prop "type" (Axis.options axis') = VStr "category".
Proof.
  destruct (afterSetOptions_xAxis_defaults (fun _ => "75") enabledChart
              (Axis.make true
                 [("type", VStr "linear"); ("opposite", VBool false)]
                 None [] (Some []) false false Undefined Undefined false None
                 Undefined)
              (Some [("opposite", VBool false)]) eq_refl eq_refl)
    as (axis' & Hrun & _ & Hstock).
  exists axis'. split; [exact Hrun|]. apply Hstock; reflexivity.
Defined.
